(** * Copy/move argument validation of the MinIO client ([mc cp], [mc mv])

    A shallow embedding of [checkCopySyntax] and of the four per-shape
    validators [checkCopySyntaxTypeA] .. [checkCopySyntaxTypeD], together
    with the containment predicate [isURLContains] and the shape classifier
    [guessCopyURLType] they call.

    The validators end the process through [FatalIf], [console.Fatalf] and
    [cli.ShowCommandHelpAndExit]; this is embedded as an error monad whose
    failure value records which exit was taken and with which message.  The
    storage collaborators ([url2Stat], [isURLPrefixExists], [newClientURL])
    are functions of the URL, supplied as section variables.

    Further sections embed the argument checks of other commands:
    [checkPolicySyntax] and [mainPolicy] with the two conversions of access
    permissions, [checkILMRemoveSyntax], [checkAdminBucketQuotaSyntax],
    [parseRetentionValidity] and [mainLock], and the flag value
    [OBDDataTypeSlice]. *)

From Stdlib Require Import String Ascii List ZArith Bool Arith Lia.
Import ListNotations.

Local Open Scope list_scope.
Local Open Scope string_scope.

(* ================================================================== *)
(** ** Go strings *)

(** [strings.HasPrefix(s, prefix)]:
    [len(s) >= len(prefix) && s[0:len(prefix)] == prefix]. *)
Definition HasPrefix (s prefix : string) : bool :=
  (String.length prefix <=? String.length s)%nat
  && (substring 0 (String.length prefix) s =? prefix).

(** [strings.HasSuffix(s, suffix)]:
    [len(s) >= len(suffix) && s[len(s)-len(suffix):] == suffix]. *)
Definition HasSuffix (s suffix : string) : bool :=
  (String.length suffix <=? String.length s)%nat
  && (substring (String.length s - String.length suffix)
                (String.length suffix) s =? suffix).

(** [string(r)] for a rune [r]: the one-character string. *)
Definition string_of_rune (r : ascii) : string := String r EmptyString.

(** The line feed written [\n] in Go string literals. *)
Definition nl : string := String "010"%char EmptyString.

(* ================================================================== *)
(** ** File modes ([os.FileMode]) *)

(** A file mode is a 32-bit mask; the kind of the file sits in the high
    bits. *)
Definition FileMode := Z.

Definition ModeDir        : FileMode := Z.shiftl 1 31.
Definition ModeSymlink    : FileMode := Z.shiftl 1 27.
Definition ModeDevice     : FileMode := Z.shiftl 1 26.
Definition ModeNamedPipe  : FileMode := Z.shiftl 1 25.
Definition ModeSocket     : FileMode := Z.shiftl 1 24.
Definition ModeCharDevice : FileMode := Z.shiftl 1 21.
Definition ModeIrregular  : FileMode := Z.shiftl 1 19.

Definition ModeType : FileMode :=
  Z.lor ModeDir (Z.lor ModeSymlink (Z.lor ModeNamedPipe
    (Z.lor ModeSocket (Z.lor ModeDevice (Z.lor ModeCharDevice ModeIrregular))))).

(** [m.IsDir()]: [m&ModeDir != 0]. *)
Definition IsDir (m : FileMode) : bool := negb (Z.land m ModeDir =? 0)%Z.

(** [m.IsRegular()]: [m&ModeType == 0]. *)
Definition IsRegular (m : FileMode) : bool := (Z.land m ModeType =? 0)%Z.

(* ================================================================== *)
(** ** Client URLs, stat results and errors *)

(** The fields of [ClientURL] that the validators read. *)
Record ClientURL := mkClientURL {
  Host : string;
  Path : string;
  Separator : ascii
}.

(** A storage client; the validators only ask it for its URL. *)
Record Client := mkClient { GetURL : ClientURL }.

(** [ClientContent]; only the [Type] field is inspected. *)
Record ClientContent := mkContent { Type_ : FileMode }.

(** The [*probe.Error] values that occur: the two constructors used by the
    validators and whatever the storage layer reports. *)
Inductive probeError :=
| errDummy
| errInvalidArgument
| errStorage (detail : string).

(** The triple returned by [url2Stat]: a client and content with a nil
    error, or an error. *)
Inductive statResult :=
| StatOk (c : Client) (content : ClientContent)
| StatErr (err : probeError).

(** [copyURLsType].  [copyURLsTypeInvalid] stands for every value other
    than the four the dispatch names (its [default] branch). *)
Inductive copyURLsType :=
| copyURLsTypeInvalid
| copyURLsTypeA
| copyURLsTypeB
| copyURLsTypeC
| copyURLsTypeD.

(** The command line as [cli.Context] exposes it. *)
Module cli.
Record Context := mkContext {
  Args : list string;
  Bool : string -> bool;
  String : string -> string
}.
End cli.

(* ================================================================== *)
(** ** Fatal exits *)

(** Which exit was taken.  One tag per exit site of the validators. *)
Inductive Reason :=
| UsageHelp
| ArgumentParse
| SourceUnverifiable
| MissingBucketName
| IncompleteRetentionPair
| UnableToGuess
| InvalidArgumentCount
| SourceStatFailed
| SourceNotRegular
| TargetNotFolder
| RecursiveRequired
| SelfContainment
| UnsupportedOnPlatform.

(** What a fatal exit carries: the site, the probe error handed to
    [FatalIf] (none for [console.Fatalf] and the help exit), the arguments
    given to [Trace], and the message. *)
Record Rejection := mkRejection {
  reason : Reason;
  cause : option probeError;
  trace : list string;
  message : string
}.

(** A computation that either goes on with a value or has left the
    process. *)
Inductive Result (A : Type) :=
| Ok (a : A)
| Fatal (r : Rejection).
Arguments Ok {A} a.
Arguments Fatal {A} r.

Definition bind {A B : Type} (m : Result A) (k : A -> Result B) : Result B :=
  match m with
  | Ok a => k a
  | Fatal r => Fatal r
  end.

Notation "m ;; k" := (bind m (fun _ => k))
  (at level 61, right associativity).

(** The validators return nothing; returning at all means accepted. *)
Definition ValidationOutcome := Result unit.
Definition Accepted : ValidationOutcome := Ok tt.

(** [FatalIf(err.Trace(args...), msg)]: nothing when [err] is nil, exit
    otherwise. *)
Definition FatalIf (site : Reason) (err : option probeError)
    (args : list string) (msg : string) : Result unit :=
  match err with
  | None => Ok tt
  | Some e => Fatal (mkRejection site (Some e) args msg)
  end.

(** [console.Fatalf(msg)]. *)
Definition Fatalf (site : Reason) (msg : string) : Result unit :=
  Fatal (mkRejection site None [] msg).

(** [cli.ShowCommandHelpAndExit(ctx, command, code)]; the exit code is 1 at
    both call sites. *)
Definition ShowCommandHelpAndExit (command : string) : Result unit :=
  Fatal (mkRejection UsageHelp None [] command).

(** A Go [if cond { ... }] whose body exits. *)
Definition when (cond : bool) (body : Result unit) : Result unit :=
  if cond then body else Ok tt.

(** [for _, x := range xs { body }] with a body that may exit. *)
Fixpoint forEach {A : Type} (body : A -> Result unit) (xs : list A)
    : Result unit :=
  match xs with
  | [] => Ok tt
  | x :: rest => body x ;; forEach body rest
  end.

(** The outcome with the message wording left out. *)
Definition decision (r : Result unit)
    : option (Reason * option probeError * list string) :=
  match r with
  | Ok _ => None
  | Fatal j => Some (reason j, cause j, trace j)
  end.

(** Whether the outcome is the exit of a given site. *)
Definition Reason_eqb (a b : Reason) : bool :=
  match a, b with
  | UsageHelp, UsageHelp
  | ArgumentParse, ArgumentParse
  | SourceUnverifiable, SourceUnverifiable
  | MissingBucketName, MissingBucketName
  | IncompleteRetentionPair, IncompleteRetentionPair
  | UnableToGuess, UnableToGuess
  | InvalidArgumentCount, InvalidArgumentCount
  | SourceStatFailed, SourceStatFailed
  | SourceNotRegular, SourceNotRegular
  | TargetNotFolder, TargetNotFolder
  | RecursiveRequired, RecursiveRequired
  | SelfContainment, SelfContainment
  | UnsupportedOnPlatform, UnsupportedOnPlatform => true
  | _, _ => false
  end.

Definition rejectedWith (site : Reason) (r : Result unit) : bool :=
  match r with
  | Ok _ => false
  | Fatal j => Reason_eqb (reason j) site
  end.

(* ================================================================== *)
(** ** Containment predicate *)

(** Modelled from the spec: the normalisation step of [isURLContains],
    whose body is not among the sources.  Section 4.3: ensure a trailing
    separator, that is, add the separator unless the path already ends with
    it (the idiom of [share-download-main.go], lines 140-141). *)
Definition ensureTrailingSeparator (url sep : string) : string :=
  if negb (HasSuffix url sep) then url ++ sep else url.

(** Modelled from the spec: [isURLContains] is called by
    [checkCopySyntaxTypeC] but its body is not among the sources.  Section
    4.3: normalise both paths by ensuring a trailing separator, then answer
    whether the descendant, so normalised, begins with the ancestor, so
    normalised. *)
Definition isURLContains (srcURL tgtURL sep : string) : bool :=
  HasPrefix (ensureTrailingSeparator tgtURL sep)
            (ensureTrailingSeparator srcURL sep).

(* ================================================================== *)
(** ** The validators *)

Section Validator.

(** [url2Stat(ctx, url, false, keys)]: the stat collaborator, a function
    of the URL. *)
Variable url2Stat : string -> statResult.

(** [isURLPrefixExists(url, incomplete)]: whether anything lives under
    the prefix. *)
Variable isURLPrefixExists : string -> bool -> bool.

(** [newClientURL(url)]: the parsed form of a URL. *)
Variable newClientURL : string -> ClientURL.

(** [guessCopyURLType(ctx, srcURLs, tgtURL, isRecursive, keys)]: the
    shape and an error, as the call site receives them. *)
Variable guessCopyURLType :
  list string -> string -> bool -> copyURLsType * option probeError.

(** The names of the two retention flags and [runtime.GOOS]. *)
Variables rdFlag rmFlag GOOS : string.

(** [checkCopySyntaxTypeA] verifies if the source and target are valid
    file arguments. *)
Definition checkCopySyntaxTypeA (srcURLs : list string) (tgtURL : string)
    (isMvCmd : bool) : Result unit :=
  (* Check source. *)
  when (negb (length srcURLs =? 1)%nat)
    (FatalIf InvalidArgumentCount (Some errInvalidArgument) []
       "Invalid number of source arguments.") ;;
  let srcURL := nth 0 srcURLs "" in
  match url2Stat srcURL with
  | StatErr err =>
      FatalIf SourceStatFailed (Some err) [srcURL]
        ("Unable to stat source `" ++ srcURL ++ "`.")
  | StatOk _ srcContent =>
      when (negb (IsRegular (Type_ srcContent)))
        (FatalIf SourceNotRegular (Some errInvalidArgument) []
           ("Source `" ++ srcURL ++ "` is not a file."))
  end.

(** [checkCopySyntaxTypeB] verifies if the source is a valid file and
    target is a valid folder. *)
Definition checkCopySyntaxTypeB (srcURLs : list string) (tgtURL : string)
    (isMvCmd : bool) : Result unit :=
  (* Check source. *)
  when (negb (length srcURLs =? 1)%nat)
    (FatalIf InvalidArgumentCount (Some errInvalidArgument) []
       "Invalid number of source arguments.") ;;
  let srcURL := nth 0 srcURLs "" in
  match url2Stat srcURL with
  | StatErr err =>
      FatalIf SourceStatFailed (Some err) [srcURL]
        ("Unable to stat source `" ++ srcURL ++ "`.")
  | StatOk _ srcContent =>
      when (negb (IsRegular (Type_ srcContent)))
        (FatalIf SourceNotRegular (Some errInvalidArgument) [srcURL]
           ("Source `" ++ srcURL ++ "` is not a file.")) ;;
      (* Check target. *)
      match url2Stat tgtURL with
      | StatOk _ tgtContent =>
          when (negb (IsDir (Type_ tgtContent)))
            (FatalIf TargetNotFolder (Some errInvalidArgument) [tgtURL]
               ("Target `" ++ tgtURL ++ "` is not a folder."))
      | StatErr _ => Ok tt
      end
  end.

(** The body of the [range srcURLs] loop of [checkCopySyntaxTypeC]
    (lines 151-182), for one source. *)
Definition checkCopySyntaxTypeC_source (tgtURL : string)
    (isRecursive isMvCmd : bool) (srcURL : string) : Result unit :=
  match url2Stat srcURL with
  | StatErr err =>
      (* incomplete uploads are not necessary for copy operation *)
      let isIncomplete := false in
      when (negb (isURLPrefixExists srcURL isIncomplete))
        (FatalIf SourceStatFailed (Some err) [srcURL]
           ("Unable to stat source `" ++ srcURL ++ "`."))
      (* No more check here, continue to the next source url *)
  | StatOk c srcContent =>
      when (IsDir (Type_ srcContent))
        ((* Require --recursive flag if we are copying a directory *)
         when (negb isRecursive)
           (let operation := if isMvCmd then "move" else "copy" in
            FatalIf RecursiveRequired (Some errInvalidArgument) [srcURL]
              ("To " ++ operation ++ " a folder requires --recursive flag.")) ;;
         (* Check if we are going to copy a directory into itself *)
         when (isURLContains srcURL tgtURL
                 (string_of_rune (Separator (GetURL c))))
           (let operation := if isMvCmd then "Moving" else "Copying" in
            FatalIf SelfContainment (Some errInvalidArgument) []
              (operation ++ " a folder into itself is not allowed.")))
  end.

(** [checkCopySyntaxTypeC] verifies if the source is a valid recursive
    dir and target is a valid folder. *)
Definition checkCopySyntaxTypeC (srcURLs : list string) (tgtURL : string)
    (isRecursive isMvCmd : bool) : Result unit :=
  (* Check source. *)
  when (negb (length srcURLs =? 1)%nat)
    (FatalIf InvalidArgumentCount (Some errInvalidArgument) []
       "Invalid number of source arguments.") ;;
  (* Check target. *)
  match url2Stat tgtURL with
  | StatOk _ tgtContent =>
      when (negb (IsDir (Type_ tgtContent)))
        (FatalIf TargetNotFolder (Some errInvalidArgument) [tgtURL]
           ("Target `" ++ tgtURL ++ "` is not a folder."))
  | StatErr _ => Ok tt
  end ;;
  forEach (checkCopySyntaxTypeC_source tgtURL isRecursive isMvCmd) srcURLs.

(** [checkCopySyntaxTypeD] verifies if the source is a valid list of
    files and target is a valid folder. *)
Definition checkCopySyntaxTypeD (srcURLs : list string) (tgtURL : string)
    (isMvCmd : bool) : Result unit :=
  (* Source can be anything: file, dir, dir... *)
  (* Check target if it is a dir *)
  match url2Stat tgtURL with
  | StatOk _ tgtContent =>
      when (negb (IsDir (Type_ tgtContent)))
        (FatalIf TargetNotFolder (Some errInvalidArgument) [tgtURL]
           ("Target `" ++ tgtURL ++ "` is not a folder."))
  | StatErr _ => Ok tt
  end.

(** The [switch copyURLsType] of [checkCopySyntax] (lines 81-92). *)
Definition dispatch (copyURLsType_ : copyURLsType) (srcURLs : list string)
    (tgtURL : string) (isRecursive isMvCmd : bool) : Result unit :=
  let operation := if isMvCmd then "move" else "copy" in
  match copyURLsType_ with
  | copyURLsTypeA => checkCopySyntaxTypeA srcURLs tgtURL isMvCmd
  | copyURLsTypeB => checkCopySyntaxTypeB srcURLs tgtURL isMvCmd
  | copyURLsTypeC => checkCopySyntaxTypeC srcURLs tgtURL isRecursive isMvCmd
  | copyURLsTypeD => checkCopySyntaxTypeD srcURLs tgtURL isMvCmd
  | copyURLsTypeInvalid =>
      FatalIf UnableToGuess (Some errInvalidArgument) []
        ("Unable to guess the type of " ++ operation ++ " operation.")
  end.

(** The body of the [range srcURLs] loop of [checkCopySyntax]
    (lines 47-52), for one source. *)
Definition checkCopySyntax_source (srcURL : string) : Result unit :=
  match url2Stat srcURL with
  | StatErr _ =>
      Fatalf SourceUnverifiable ("Unable to validate source " ++ srcURL ++ nl)
  | StatOk _ _ => Ok tt
  end.

(** [checkCopySyntax]. *)
Definition checkCopySyntax (cliCtx : cli.Context) (isMvCmd : bool)
    : Result unit :=
  when (length (cli.Args cliCtx) <? 2)%nat
    (when isMvCmd (ShowCommandHelpAndExit "mv") ;;
     ShowCommandHelpAndExit "cp") ;;
  (* extract URLs. *)
  let URLs := cli.Args cliCtx in
  when (length URLs <? 2)%nat
    (FatalIf ArgumentParse (Some errDummy) (cli.Args cliCtx)
       "Unable to parse source and target arguments.") ;;
  let srcURLs := firstn (length URLs - 1) URLs in
  let tgtURL := nth (length URLs - 1) URLs "" in
  let isRecursive := cli.Bool cliCtx "recursive" in
  (* Verify if source(s) exists. *)
  forEach checkCopySyntax_source srcURLs ;;
  (* Check if bucket name is passed for URL type arguments. *)
  let url := newClientURL tgtURL in
  when (negb (Host url =? ""))
    (when (Path url =? string_of_rune (Separator url))
       (FatalIf MissingBucketName (Some errInvalidArgument) []
          ("Target `" ++ tgtURL ++ "` does not contain bucket name."))) ;;
  when (negb (cli.String cliCtx rdFlag =? "")
        && (cli.String cliCtx rmFlag =? ""))
    (FatalIf IncompleteRetentionPair (Some errInvalidArgument) []
       ("Both object retention flags `--" ++ rdFlag ++ "` and `--" ++ rmFlag
        ++ "` are required." ++ nl)) ;;
  when ((cli.String cliCtx rdFlag =? "")
        && negb (cli.String cliCtx rmFlag =? ""))
    (FatalIf IncompleteRetentionPair (Some errInvalidArgument) []
       ("Both object retention flags `--" ++ rdFlag ++ "` and `--" ++ rmFlag
        ++ "` are required." ++ nl)) ;;
  let operation := if isMvCmd then "move" else "copy" in
  (* Guess CopyURLsType based on source and target URLs. *)
  let '(copyURLsType_, err) :=
    guessCopyURLType srcURLs tgtURL isRecursive in
  when (match err with Some _ => true | None => false end)
    (FatalIf UnableToGuess (Some errInvalidArgument) []
       ("Unable to guess the type of " ++ operation ++ " operation.")) ;;
  dispatch copyURLsType_ srcURLs tgtURL isRecursive isMvCmd ;;
  (* Preserve functionality not supported for windows *)
  when (cli.Bool cliCtx "preserve" && (GOOS =? "windows"))
    (FatalIf UnsupportedOnPlatform (Some errInvalidArgument) []
       "Permissions are not preserved on windows platform.").

End Validator.

(* ================================================================== *)
(** ** The shape classifier *)

(** Modelled from the spec: the resolved kind of a location (section 3),
    read off a stat result.  An entry that exists and is not a directory
    counts as a file. *)
Inductive Kind := Missing | File | Directory.

(** Modelled from the spec: the kind of a location as the classifier sees
    it, from the answer of the stat collaborator (section 6). *)
Definition kindOf (r : statResult) : Kind :=
  match r with
  | StatErr _ => Missing
  | StatOk _ content => if IsDir (Type_ content) then Directory else File
  end.

(** Modelled from the spec: the four shapes of section 3. *)
Inductive Shape := FileToFile | FileToFolder | TreeToFolder | ManyToFolder.

(** Modelled from the spec: [classify] of section 4.1.  The body of
    [guessCopyURLType] is not among the sources; only its call in
    [checkCopySyntax] is.  More than one source is [ManyToFolder]; a single
    file is [FileToFolder] when the target is an existing folder and
    [FileToFile] otherwise; a single directory or missing source is
    [TreeToFolder]. *)
Definition classify (sources : list Kind) (target : Kind) : Shape :=
  if (1 <? length sources)%nat then ManyToFolder
  else
    match nth 0 sources Missing with
    | File =>
        match target with
        | Directory => FileToFolder
        | _ => FileToFile
        end
    | Directory | Missing => TreeToFolder
    end.

(** Modelled from the spec: the shape under the name the dispatch of
    [checkCopySyntax] gives it; the declaration of [copyURLsType] is not
    among the sources, the pairing is that of the comments of lines
    82-88. *)
Definition copyURLsTypeOf (s : Shape) : copyURLsType :=
  match s with
  | FileToFile => copyURLsTypeA
  | FileToFolder => copyURLsTypeB
  | TreeToFolder => copyURLsTypeC
  | ManyToFolder => copyURLsTypeD
  end.

(** Modelled from the spec: [guessCopyURLType] with the signature of its
    call site, computing [classify] over the stat facts and never
    returning an error (section 4.1: no error cases). *)
Definition guessCopyURLType_spec (url2Stat : string -> statResult)
    (sourceURLs : list string) (targetURL : string) (isRecursive : bool)
    : copyURLsType * option probeError :=
  (copyURLsTypeOf
     (classify (map (fun u => kindOf (url2Stat u)) sourceURLs)
               (kindOf (url2Stat targetURL))),
   None).

(* ================================================================== *)
(** ** A small file system to run the validators on *)

Module Example.

Definition slash : ascii := "/"%char.

Definition fsClient : Client := mkClient (mkClientURL "" "" slash).

(** [drwxr-xr-x] and [-rw-r--r--]. *)
Definition dirMode : FileMode := Z.lor ModeDir 493%Z.
Definition fileMode : FileMode := 420%Z.

Definition dir : statResult := StatOk fsClient (mkContent dirMode).
Definition file : statResult := StatOk fsClient (mkContent fileMode).
Definition missing : statResult :=
  StatErr (errStorage "no such file or directory").

(** Directories [/data], [/data/logs] and [/srv]; files [/a.txt],
    [/b.txt], [/existing-file] and [/data/report.txt]; nothing else. *)
Definition url2Stat (u : string) : statResult :=
  if u =? "/data" then dir
  else if u =? "/data/logs" then dir
  else if u =? "/srv" then dir
  else if u =? "/a.txt" then file
  else if u =? "/b.txt" then file
  else if u =? "/existing-file" then file
  else if u =? "/data/report.txt" then file
  else missing.

Definition noPrefix (u : string) (incomplete : bool) : bool := false.
Definition anyPrefix (u : string) (incomplete : bool) : bool := true.

(** A remote alias without a bucket parses to a host and the path [/];
    everything else here is a local path. *)
Definition newClientURL (u : string) : ClientURL :=
  if u =? "https://play.min.io/" then mkClientURL "play.min.io" "/" slash
  else mkClientURL "" u slash.

Definition rdFlag : string := "retention-duration".
Definition rmFlag : string := "retention-mode".

(** A command line: arguments, [--recursive], and the two retention
    flag values. *)
Definition context (args : list string) (recursive : bool)
    (duration mode : string) : cli.Context :=
  cli.mkContext args
    (fun name => if name =? "recursive" then recursive else false)
    (fun name => if name =? rdFlag then duration
                 else if name =? rmFlag then mode else "").

End Example.


(* ================================================================== *)
(** ** Conditions on a request used in the statements *)

(** The target does not exist, or exists and is a directory. *)
Definition targetIsFolderOrMissing (url2Stat : string -> statResult)
    (tgtURL : string) : bool :=
  match url2Stat tgtURL with
  | StatOk _ tgtContent => IsDir (Type_ tgtContent)
  | StatErr _ => true
  end.

(** Every source stats without error. *)
Definition sourcesExist (url2Stat : string -> statResult)
    (srcURLs : list string) : bool :=
  forallb (fun u => match url2Stat u with
                    | StatOk _ _ => true
                    | StatErr _ => false
                    end) srcURLs.

(** The target is not a remote alias without a bucket: its host is empty
    or its path is more than the separator. *)
Definition hasBucketName (url : ClientURL) : bool :=
  negb (negb (Host url =? "") && (Path url =? string_of_rune (Separator url))).

(** The message of the retention exit. *)
Definition retentionMessage (rdFlag rmFlag : string) : string :=
  "Both object retention flags `--" ++ rdFlag ++ "` and `--" ++ rmFlag
  ++ "` are required." ++ nl.

(** The rejection of a validator whose source cannot be statted. *)
Definition sourceStatFailed (err : probeError) (srcURL : string) : Rejection :=
  mkRejection SourceStatFailed (Some err) [srcURL]
    ("Unable to stat source `" ++ srcURL ++ "`.").

(** The rejection of a directory source given without [--recursive]. *)
Definition recursiveRequired (isMvCmd : bool) (srcURL : string) : Rejection :=
  mkRejection RecursiveRequired (Some errInvalidArgument) [srcURL]
    ("To " ++ (if isMvCmd then "move" else "copy")
     ++ " a folder requires --recursive flag.").

(** The rejection of a directory copied or moved into itself. *)
Definition selfContainment (isMvCmd : bool) : Rejection :=
  mkRejection SelfContainment (Some errInvalidArgument) []
    ((if isMvCmd then "Moving" else "Copying")
     ++ " a folder into itself is not allowed.").

(** The rejection every target check produces. *)
Definition targetNotFolder (tgtURL : string) : Rejection :=
  mkRejection TargetNotFolder (Some errInvalidArgument) [tgtURL]
    ("Target `" ++ tgtURL ++ "` is not a folder.").

(* ================================================================== *)
(** ** Classifier answers and the exits around the dispatch *)

(** The rejection taken when the shape cannot be guessed. *)
Definition unableToGuess (isMvCmd : bool) : Rejection :=
  mkRejection UnableToGuess (Some errInvalidArgument) []
    ("Unable to guess the type of " ++ (if isMvCmd then "move" else "copy")
     ++ " operation.").

(** The rejection of [--preserve] on windows. *)
Definition unsupportedOnPlatform : Rejection :=
  mkRejection UnsupportedOnPlatform (Some errInvalidArgument) []
    "Permissions are not preserved on windows platform.".


Definition fixedGuess (ty : copyURLsType) (srcURLs : list string)
    (tgtURL : string) (isRecursive : bool)
    : copyURLsType * option probeError :=
  (ty, None).

From Stdlib Require Import NArith Decimal DecimalString DecimalN.

(* ================================================================== *)
(** ** Further conditions and examples for [checkCopySyntax] *)

(** The exits whose message names the operation ([mv] or [cp], [move] or
    [copy], [Moving] or [Copying]). *)
Definition wordingSite (site : Reason) : bool :=
  match site with
  | UsageHelp | UnableToGuess | RecursiveRequired | SelfContainment => true
  | _ => false
  end.

(** The rejection of a number of sources other than one. *)
Definition invalidArgumentCount : Rejection :=
  mkRejection InvalidArgumentCount (Some errInvalidArgument) []
    "Invalid number of source arguments.".

(** A command line with [--preserve] and nothing else set. *)
Definition preservingContext (args : list string) : cli.Context :=
  cli.mkContext args
    (fun name => if name =? "preserve" then true else false)
    (fun _ => "").

(** Two outcomes that are the same, or are both the exit of one site whose
    message names the operation. *)
Definition sameOrWording (a b : Result unit) : Prop :=
  a = b
  \/ exists ja jb,
       a = Fatal ja /\ b = Fatal jb
       /\ reason ja = reason jb /\ wordingSite (reason ja) = true.

(* ================================================================== *)
(** ** Exits of the other commands *)

(** The two errors of [strconv]. *)
Inductive numError := ErrSyntax | ErrRange.

(** A Go [error] wrapped by [probe.NewError]: an error with a text, or the
    [*strconv.NumError] of a function failing on a numeral. *)
Inductive goError :=
| GoError (text : string)
| NumError (func num : string) (err : numError).

(** What [FatalIf] is handed: one of the probe errors above, or a wrapped
    Go error. *)
Inductive failure :=
| Probe (err : probeError)
| Wrapped (e : goError).

(** How a command leaves the process: through the help of a command with
    an exit status, or through [FatalIf] with an error, the arguments given
    to [Trace] and a message. *)
Inductive Exit :=
| HelpExit (command : string) (status : nat)
| FatalExit (err : failure) (args : list string) (msg : string).

(** A command that goes on with a value or has left the process. *)
Inductive Run (A : Type) :=
| Done (a : A)
| Exited (e : Exit).
Arguments Done {A} a.
Arguments Exited {A} e.

Definition andThen {A B : Type} (m : Run A) (k : A -> Run B) : Run B :=
  match m with
  | Done a => k a
  | Exited e => Exited e
  end.

Notation "m >> k" := (andThen m (fun _ => k))
  (at level 62, right associativity).

(** A Go [if cond { ... }] whose body exits. *)
Definition exitIf (cond : bool) (e : Exit) : Run unit :=
  if cond then Exited e else Done tt.

(** [for _, x := range xs { body }] with a body that may exit. *)
Fixpoint forAll {A : Type} (body : A -> Run unit) (xs : list A) : Run unit :=
  match xs with
  | [] => Done tt
  | x :: rest => body x >> forAll body rest
  end.

(** [cli.Args]: [Get(n)] is the empty string out of range, [First()] is
    [Get(0)], [Tail()] drops the first argument when there are two or
    more and is empty otherwise. *)
Definition Get (args : list string) (n : nat) : string := nth n args "".
Definition First (args : list string) : string := Get args 0.
Definition Tail (args : list string) : list string :=
  if (2 <=? length args)%nat then tl args else [].

(* ================================================================== *)
(** ** [policy-main.go]: access permissions *)

Section Policy.

(** The constants of type [accessPerms]; their declaration is not among
    the sources. *)
Variables accessNone accessDownload accessUpload accessPublic accessCustom
  : string.

(** [os.IsPathSeparator], which depends on the platform. *)
Variable IsPathSeparator : ascii -> bool.

(** [accessPermToString]: convert an accessPerms to a string recognizable
    by minio-go. *)
Definition accessPermToString (perm : string) : string :=
  if perm =? accessNone then "none"
  else if perm =? accessDownload then "readonly"
  else if perm =? accessUpload then "writeonly"
  else if perm =? accessPublic then "readwrite"
  else if perm =? accessCustom then "custom"
  else "".

(** [stringToAccessPerm]: convert a minio-go permission to accessPerms
    type. *)
Definition stringToAccessPerm (perm : string) : string :=
  if perm =? "none" then accessNone
  else if perm =? "readonly" then accessDownload
  else if perm =? "writeonly" then accessUpload
  else if perm =? "readwrite" then accessPublic
  else if perm =? "custom" then accessCustom
  else "".

(** The loop of [filepath.Ext], with [n] one more than its index [i]:
    walk back from the end until a path separator, and return the rest of
    the path from the first dot met. *)
Fixpoint extFrom (n : nat) (path : string) : string :=
  match n with
  | 0 => ""
  | S i =>
      match get i path with
      | Some c =>
          if IsPathSeparator c then ""
          else if Ascii.eqb c "."%char
               then substring i (String.length path - i) path
               else extFrom i path
      | None => ""
      end
  end.

(** [filepath.Ext(path)]. *)
Definition Ext (path : string) : string := extFrom (String.length path) path.

(** [checkPolicySyntax]: check for incoming syntax. *)
Definition checkPolicySyntax (args : list string) : Run unit :=
  let argsLength := length args in
  (* Always print a help message when we have extra arguments *)
  exitIf (3 <? argsLength)%nat (HelpExit "policy" 1) >>
  (* Always print a help message when no arguments specified *)
  exitIf (argsLength <? 1)%nat (HelpExit "policy" 1) >>
  let firstArg := Get args 0 in
  let secondArg := Get args 1 in
  (* More syntax checking *)
  if firstArg =? "set" then
    (* Always expect three arguments when setting a policy permission. *)
    exitIf (negb (argsLength =? 3)%nat) (HelpExit "policy" 1) >>
    exitIf (negb (secondArg =? accessNone)
            && negb (secondArg =? accessDownload)
            && negb (secondArg =? accessUpload)
            && negb (secondArg =? accessPublic))
      (FatalExit (Probe errDummy) []
         ("Unrecognized permission `" ++ secondArg
          ++ "`. Allowed values are [none, download, upload, public]."))
  else if firstArg =? "set-json" then
    (* Always expect three arguments when setting a policy permission. *)
    exitIf (negb (argsLength =? 3)%nat) (HelpExit "policy" 1) >>
    (* Validate the type of input file *)
    exitIf (negb (Ext secondArg =? ".json"))
      (FatalExit (Probe errDummy) []
         ("Unrecognized policy file format `" ++ secondArg
          ++ "`. Only json files are accepted."))
  else if (firstArg =? "get") || (firstArg =? "get-json") then
    (* get or get-json always expects two arguments *)
    exitIf (negb (argsLength =? 2)%nat) (HelpExit "policy" 1)
  else if firstArg =? "list" then
    (* Always expect an argument after list cmd *)
    exitIf (negb (argsLength =? 2)%nat) (HelpExit "policy" 1)
  else if firstArg =? "links" then
    (* Always expect an argument after links cmd *)
    exitIf (negb (argsLength =? 2)%nat) (HelpExit "policy" 1)
  else Exited (HelpExit "policy" 1).

(** The three runners [mainPolicy] hands the arguments to. *)
Variable runPolicyCmd : list string -> Run unit.
Variable runPolicyListCmd : list string -> Run unit.
Variable runPolicyLinksCmd : list string -> bool -> Run unit.

(** [mainPolicy]. *)
Definition mainPolicy (ctx : cli.Context) : Run unit :=
  (* check 'policy' cli arguments. *)
  checkPolicySyntax (cli.Args ctx) >>
  let first := First (cli.Args ctx) in
  if (first =? "set") || (first =? "set-json") || (first =? "get")
     || (first =? "get-json")
  then runPolicyCmd (cli.Args ctx)
  else if first =? "list" then runPolicyListCmd (Tail (cli.Args ctx))
  else if first =? "links"
  then runPolicyLinksCmd (Tail (cli.Args ctx)) (cli.Bool ctx "recursive")
  else (* Shows command example and exit *)
    Exited (HelpExit "policy" 1).

End Policy.

(* ================================================================== *)
(** ** The lifecycle commands: [checkILMRemoveSyntax] *)

Section ILMRemove.

(** [globalErrorExitStatus] and [ctx.Command.FullName()]. *)
Variable globalErrorExitStatus : nat.
Variable commandFullName : string.

(** [checkILMRemoveSyntax]. *)
Definition checkILMRemoveSyntax (ctx : cli.Context) : Run unit :=
  exitIf (negb (length (cli.Args ctx) =? 1)%nat)
    (HelpExit "remove" globalErrorExitStatus) >>
  let ilmAll := cli.Bool ctx "all" in
  let ilmForce := cli.Bool ctx "force" in
  let forceChk := (ilmAll && ilmForce) || (negb ilmAll && negb ilmForce) in
  exitIf (negb forceChk)
    (FatalExit (Probe errInvalidArgument) []
       ("It is mandatory to specify --all and --force flag together for mc "
        ++ commandFullName ++ ".")) >>
  if ilmAll && ilmForce then Done tt
  else
    let ilmID := cli.String ctx "id" in
    exitIf (ilmID =? "")
      (FatalExit (Probe errInvalidArgument) [ilmID] "ilm ID cannot be empty").

End ILMRemove.

(** The command lines [checkPolicySyntax] lets through: [set] with one of
    the four permissions and a target, [set-json] with a file whose name
    ends in [.json] and a target, or one of [get], [get-json], [list],
    [links] with a target. *)
Definition wellFormedPolicyArgs
    (accessNone accessDownload accessUpload accessPublic : string)
    (args : list string) : Prop :=
  (exists perm target,
      args = ["set"; perm; target]
      /\ In perm [accessNone; accessDownload; accessUpload; accessPublic])
  \/ (exists file target,
         args = ["set-json"; file; target]
         /\ HasSuffix file ".json" = true)
  \/ (exists op target,
         args = [op; target]
         /\ In op ["get"; "get-json"; "list"; "links"]).

(** A command line of the lifecycle and lock commands: arguments, boolean
    flags that are set, and the value of [--id]. *)
Definition flagContext (args : list string) (setFlags : list string)
    (id : string) : cli.Context :=
  cli.mkContext args
    (fun name => existsb (String.eqb name) setFlags)
    (fun name => if name =? "id" then id else "").

(** Runners for [mainPolicy] that record which one was called, as the
    command of a help exit. *)
Definition recordCmd (args : list string) : Run unit :=
  Exited (HelpExit "runPolicyCmd" (length args)).
Definition recordList (args : list string) : Run unit :=
  Exited (HelpExit "runPolicyListCmd" (length args)).
Definition recordLinks (args : list string) (recursive : bool) : Run unit :=
  Exited (HelpExit "runPolicyLinksCmd" (length args)).

(* ================================================================== *)
(** ** [admin-bucket-quota.go]: [checkAdminBucketQuotaSyntax] *)

Section BucketQuota.

(** [ctx.IsSet(name)]: whether the flag was given on the command line. *)
Variable IsSet : string -> bool.

(** [checkAdminBucketQuotaSyntax]: validate all the passed arguments. *)
Definition checkAdminBucketQuotaSyntax (ctx : cli.Context) : Run unit :=
  exitIf ((length (cli.Args ctx) =? 0)%nat || (1 <? length (cli.Args ctx))%nat)
    (HelpExit "quota" 1) >>
  exitIf (IsSet "hard" && IsSet "fifo")
    (FatalExit (Probe errInvalidArgument) []
       "Only one of --hard or --fifo flags can be set") >>
  exitIf ((IsSet "hard" || IsSet "fifo") && (length (cli.Args ctx) =? 0)%nat)
    (FatalExit (Probe errInvalidArgument) (cli.Args ctx)
       "please specify bucket and quota") >>
  exitIf (IsSet "clear" && (length (cli.Args ctx) =? 0)%nat)
    (FatalExit (Probe errInvalidArgument) (cli.Args ctx)
       "clear flag must be passed with target alone").

End BucketQuota.

(** Which flags were given, from a list of their names. *)
Definition flagsGiven (names : list string) (name : string) : bool :=
  existsb (String.eqb name) names.

(* ================================================================== *)
(** ** The lock command: [parseRetentionValidity] and [mainLock] *)

(** A Go call that returns or panics. *)
Inductive Go (A : Type) :=
| Returns (a : A)
| Panics (what : string).
Arguments Returns {A} a.
Arguments Panics {A} what.

(** [math.MaxUint64]. *)
Definition maxUint64 : N := 18446744073709551615.

(** ['0' <= c && c <= '9']. *)
Definition isDigit (c : ascii) : bool :=
  (48 <=? nat_of_ascii c)%nat && (nat_of_ascii c <=? 57)%nat.

(** The loop of [strconv.ParseUint(s, 10, 64)] over the bytes of [s], with
    the value [n] read so far.  A byte that is no decimal digit is a syntax
    error (a letter is a digit of a larger base, an underscore is allowed
    in base 0 only).  The two overflow tests of the loop, [n >= cutoff] with
    [cutoff = maxUint64/10 + 1] and [n1 < n || n1 > maxVal] on the wrapped
    sum, are tests on the unbounded value here. *)
Fixpoint parseUintFrom (s : string) (n : N) : N * option numError :=
  match s with
  | EmptyString => (n, None)
  | String c rest =>
      if isDigit c then
        let d := N.of_nat (nat_of_ascii c - 48) in
        if (maxUint64 / 10 + 1 <=? n)%N then (maxUint64, Some ErrRange)
        else
          let n1 := (n * 10 + d)%N in
          if (maxUint64 <? n1)%N then (maxUint64, Some ErrRange)
          else parseUintFrom rest n1
      else (0%N, Some ErrSyntax)
  end.

(** [strconv.ParseUint(s, 10, 64)]: the value and the error. *)
Definition ParseUint (s : string) : N * option numError :=
  if s =? "" then (0%N, Some ErrSyntax) else parseUintFrom s 0.

(** [string(b)] for a byte [b]: the UTF-8 encoding of the code point of
    that number, one byte below 128 and two bytes from 128 on. *)
Definition string_of_byte (b : ascii) : string :=
  let n := nat_of_ascii b in
  if (n <? 128)%nat then String b EmptyString
  else String (ascii_of_nat (192 + n / 64))
         (String (ascii_of_nat (128 + n mod 64)) EmptyString).

(** [fmt.Sprintf] of an unsigned integer with [%d]. *)
Definition decimal (n : N) : string := NilEmpty.string_of_uint (N.to_uint n).

Section Lock.

(** [minio.RetentionMode.IsValid], and the units [minio.Days] and
    [minio.Years]. *)
Variable IsValid : string -> bool.
Variables Days Years : string.

(** [parseRetentionValidity]: the validity, the unit and the error (with
    the arguments of its [Trace]). *)
Definition parseRetentionValidity (validityStr m : string)
    : Go (N * string * option (failure * list string)) :=
  if negb (IsValid m) then
    Returns (0%N, "",
             Some (Probe errInvalidArgument,
                   ["invalid retention mode '" ++ m ++ "'"]))
  else
    match get (String.length validityStr - 1) validityStr with
    | None => Panics "index out of range"
    | Some b =>
        let unitStr := string_of_byte b in
        let validityStr :=
          substring 0 (String.length validityStr - 1) validityStr in
        match ParseUint validityStr with
        | (_, Some e) =>
            Returns (0%N, "",
                     Some (Wrapped (NumError "ParseUint" validityStr e),
                           [validityStr]))
        | (validity, None) =>
            if (unitStr =? "d") || (unitStr =? "D")
            then Returns (validity, Days, None)
            else if (unitStr =? "y") || (unitStr =? "Y")
            then Returns (validity, Years, None)
            else Returns (0%N, "",
                          Some (Probe errInvalidArgument, [unitStr]))
        end
    end.

(** [strings.ToUpper], and the function [lock] that talks to the server. *)
Variable ToUpper : string -> string.
Variable lock : string -> string -> N -> string -> bool -> Run unit.


End Lock.

(** The two retention modes minio-go accepts. *)
Definition retentionModeIsValid (m : string) : bool :=
  (m =? "GOVERNANCE") || (m =? "COMPLIANCE").



(* ================================================================== *)
(** ** [admin-obd.go]: the list of OBD tests as a flag value *)

(** [strings.Split(s, sep)] for a separator of one byte: the pieces of [s]
    between the separators, one more than there are separators. *)
Fixpoint Split (s : string) (sep : ascii) : list string :=
  match s with
  | EmptyString => [EmptyString]
  | String c rest =>
      if Ascii.eqb c sep then EmptyString :: Split rest sep
      else
        match Split rest sep with
        | piece :: pieces => String c piece :: pieces
        | [] => [String c EmptyString]
        end
  end.

(** [strings.Trim(s, " ")]: [s] without its leading and trailing
    spaces. *)
Fixpoint TrimLeftSpaces (s : string) : string :=
  match s with
  | String c rest => if Ascii.eqb c " " then TrimLeftSpaces rest else s
  | EmptyString => EmptyString
  end.

Fixpoint TrimRightSpaces (s : string) : string :=
  match s with
  | EmptyString => EmptyString
  | String c rest =>
      let rest' := TrimRightSpaces rest in
      if Ascii.eqb c " " && (rest' =? "") then EmptyString
      else String c rest'
  end.

Definition TrimSpaces (s : string) : string :=
  TrimRightSpaces (TrimLeftSpaces s).

Section OBD.

(** [madmin.OBDDataTypesMap], looked up by name, and [options], the list
    [madmin.OBDDataTypesList] as an [OBDDataTypeSlice]. *)
Variable OBDDataTypesMap : string -> option string.
Variable options : list string.

(** The loop of [OBDDataTypeSlice.String] with the text [val] built so
    far: each test is appended, after a comma unless [val] is empty. *)
Fixpoint stringFrom (val : string) (d : list string) : string :=
  match d with
  | [] => val
  | obdData :: rest =>
      stringFrom (if negb (val =? "") then val ++ "," ++ obdData
                  else val ++ obdData) rest
  end.

(** [OBDDataTypeSlice.String]: the string representation of the OBD
    datatypes. *)
Definition OBDDataTypeSlice_String (d : list string) : string :=
  stringFrom "" d.

(** The loop of [OBDDataTypeSlice.Set] over the pieces of the value: the
    slice after it and the error returned. *)
Fixpoint setFrom (pieces : list string) (d : list string)
    : list string * option goError :=
  match pieces with
  | [] => (d, None)
  | v :: rest =>
      match OBDDataTypesMap (TrimSpaces v) with
      | Some obdData => setFrom rest (d ++ [obdData])%list
      | None =>
          (d, Some (GoError ("valid options include "
                             ++ OBDDataTypeSlice_String options)))
      end
  end.

(** [OBDDataTypeSlice.Set]: sets the flag to the given value. *)
Definition OBDDataTypeSlice_Set (value : string) (d : list string)
    : list string * option goError :=
  setFrom (Split value ",") d.

End OBD.

(** A list without its leading empty strings. *)
Fixpoint dropLeadingEmpty (d : list string) : list string :=
  match d with
  | x :: rest => if x =? "" then dropLeadingEmpty rest else d
  | [] => []
  end.

(** Whether a byte occurs in a string. *)
Fixpoint occurs (c : ascii) (s : string) : bool :=
  match s with
  | EmptyString => false
  | String a rest => Ascii.eqb a c || occurs c rest
  end.

(** A table of OBD tests that maps each known name to itself. *)
Definition knownTests (names : list string) (name : string) : option string :=
  if existsb (String.eqb name) names then Some name else None.

(* ================================================================== *)
(** * Properties *)

(** ** Strings *)

Section StringFacts.

Lemma length_append (s t : string) :
  String.length (s ++ t) = String.length s + String.length t.
Proof. induction s as [|c s IH]; simpl; [reflexivity | now rewrite IH]. Qed.

Lemma append_empty_r (s : string) : s ++ "" = s.
Proof. induction s as [|c s IH]; simpl; [reflexivity | now rewrite IH]. Qed.

Lemma append_assoc (s t u : string) : (s ++ t) ++ u = s ++ t ++ u.
Proof. induction s as [|c s IH]; simpl; [reflexivity | now rewrite IH]. Qed.

Lemma substring_whole (s : string) : substring 0 (String.length s) s = s.
Proof. induction s as [|c s IH]; simpl; [reflexivity | now rewrite IH]. Qed.

Lemma substring_none (n : nat) (s : string) : substring n 0 s = "".
Proof.
  revert n; induction s as [|c s IH]; intros [|n]; simpl; auto.
Qed.

Lemma substring_append_head (p r : string) :
  substring 0 (String.length p) (p ++ r) = p.
Proof.
  induction p as [|c p IH]; simpl.
  - apply substring_none.
  - now rewrite IH.
Qed.

Lemma substring_append_tail (p r : string) :
  substring (String.length p) (String.length r) (p ++ r) = r.
Proof.
  induction p as [|c p IH]; simpl; [apply substring_whole | exact IH].
Qed.

Lemma substring_split (n : nat) :
  forall s, n <= String.length s ->
    s = substring 0 n s ++ substring n (String.length s - n) s.
Proof.
  induction n as [|n IH]; intros s Hn.
  - rewrite substring_none, Nat.sub_0_r, substring_whole. reflexivity.
  - destruct s as [|c s]; simpl in Hn; [lia|].
    simpl. f_equal. apply IH. lia.
Qed.

Lemma HasPrefix_iff (s p : string) :
  HasPrefix s p = true <-> exists rest, s = p ++ rest.
Proof.
  unfold HasPrefix. rewrite andb_true_iff, Nat.leb_le, String.eqb_eq. split.
  - intros [Hlen Hsub].
    exists (substring (String.length p) (String.length s - String.length p) s).
    rewrite <- Hsub at 1. apply substring_split, Hlen.
  - intros [rest ->]. rewrite length_append, substring_append_head.
    split; [lia | reflexivity].
Qed.

Lemma HasSuffix_iff (s suf : string) :
  HasSuffix s suf = true <-> exists front, s = front ++ suf.
Proof.
  unfold HasSuffix. rewrite andb_true_iff, Nat.leb_le, String.eqb_eq. split.
  - intros [Hlen Hsub].
    exists (substring 0 (String.length s - String.length suf) s).
    pose proof (substring_split (String.length s - String.length suf) s
                  ltac:(lia)) as Hsplit.
    replace (String.length s - (String.length s - String.length suf))
      with (String.length suf) in Hsplit by lia.
    rewrite Hsub in Hsplit. exact Hsplit.
  - intros [front ->]. rewrite length_append.
    replace (String.length front + String.length suf - String.length suf)
      with (String.length front) by lia.
    rewrite substring_append_tail. split; [lia | reflexivity].
Qed.

Lemma HasPrefix_refl (s : string) : HasPrefix s s = true.
Proof. apply HasPrefix_iff. exists "". now rewrite append_empty_r. Qed.

End StringFacts.

(** ** File modes *)

Lemma ModeDir_in_ModeType : Z.land ModeType ModeDir = ModeDir.
Proof. reflexivity. Qed.

(** A directory is never a regular file, and a regular file has kind
    [File]. *)
Lemma IsDir_not_IsRegular (m : FileMode) :
  IsDir m = true -> IsRegular m = false.
Proof.
  unfold IsDir, IsRegular. intros Hd.
  apply negb_true_iff, Z.eqb_neq in Hd. apply Z.eqb_neq. intros Ht.
  apply Hd. rewrite <- ModeDir_in_ModeType, Z.land_assoc, Ht. reflexivity.
Qed.

Lemma regular_kind_File (c : Client) (content : ClientContent) :
  IsRegular (Type_ content) = true -> kindOf (StatOk c content) = File.
Proof.
  intros Hreg. simpl. destruct (IsDir (Type_ content)) eqn:Hdir; auto.
  apply IsDir_not_IsRegular in Hdir. congruence.
Qed.

(** ** The containment predicate *)

(** C6.  [isURLContains ancestor descendant sep] normalises both paths by
    ensuring a trailing separator (a path that already ends with the
    separator is kept, any other gets the separator appended, so the result
    always ends with it) and is true exactly when the normalised descendant
    begins with the normalised ancestor.  Consequently every path contains
    itself, ["/a/b"] contains ["/a/b/c"], and ["/a/bc"] does not contain
    ["/a/b"]. *)
Theorem C6_isURLContains_prefix_on_normalised_paths :
  (forall p sep : string,
      (exists front, ensureTrailingSeparator p sep = front ++ sep)
      /\ ((exists front, p = front ++ sep) ->
          ensureTrailingSeparator p sep = p)
      /\ (~ (exists front, p = front ++ sep) ->
          ensureTrailingSeparator p sep = p ++ sep))
  /\ (forall ancestor descendant sep : string,
         isURLContains ancestor descendant sep = true
         <-> exists rest,
             ensureTrailingSeparator descendant sep
             = ensureTrailingSeparator ancestor sep ++ rest)
  /\ (forall A : string, isURLContains A A "/" = true)
  /\ isURLContains "/a/b" "/a/b/c" "/" = true
  /\ isURLContains "/a/bc" "/a/b" "/" = false.
Proof.
  split; [|split; [|split; [|split]]].
  - intros p sep. unfold ensureTrailingSeparator.
    destruct (HasSuffix p sep) eqn:Hs; simpl.
    + split; [now apply HasSuffix_iff | split; [reflexivity|]].
      intros Hn. apply HasSuffix_iff in Hs. contradiction.
    + split; [now exists p | split; [|reflexivity]].
      intros Hex. apply HasSuffix_iff in Hex. congruence.
  - intros ancestor descendant sep. unfold isURLContains.
    apply HasPrefix_iff.
  - intros A. unfold isURLContains. apply HasPrefix_refl.
  - reflexivity.
  - reflexivity.
Qed.

(** ** The exit monad *)

Section ExitFacts.

Lemma Reason_eqb_eq (a b : Reason) : Reason_eqb a b = true <-> a = b.
Proof. destruct a, b; simpl; split; congruence. Qed.

(** [rejectedWith site r = false] says that [r] is not the exit of
    [site]. *)
Lemma rejectedWith_false_iff (site : Reason) (r : Result unit) :
  rejectedWith site r = false <-> forall j, r = Fatal j -> reason j <> site.
Proof.
  destruct r as [[]|j]; simpl.
  - split; [discriminate | reflexivity].
  - split.
    + intros Hne j' [= <-] Heq. apply Reason_eqb_eq in Heq. congruence.
    + intros Hall. destruct (Reason_eqb (reason j) site) eqn:Heq; auto.
      apply Reason_eqb_eq in Heq. now destruct (Hall j eq_refl).
Qed.

Lemma decision_bind (a a' : Result unit) (k k' : unit -> Result unit) :
  decision a = decision a' ->
  decision (k tt) = decision (k' tt) ->
  decision (bind a k) = decision (bind a' k').
Proof.
  destruct a as [[]|r], a' as [[]|r']; simpl; intros Ha Hk;
    solve [assumption | discriminate].
Qed.

Lemma decision_when (c : bool) (a a' : Result unit) :
  decision a = decision a' -> decision (when c a) = decision (when c a').
Proof. destruct c; simpl; auto. Qed.

Lemma decision_forEach {A : Type} (f g : A -> Result unit) (xs : list A) :
  (forall x, decision (f x) = decision (g x)) ->
  decision (forEach f xs) = decision (forEach g xs).
Proof.
  intros Hfg. induction xs as [|x xs IH]; simpl; [reflexivity|].
  apply decision_bind; auto.
Qed.

Lemma rejectedWith_bind (t : Reason) (a : Result unit)
    (k : unit -> Result unit) :
  rejectedWith t a = false ->
  rejectedWith t (k tt) = false ->
  rejectedWith t (bind a k) = false.
Proof. destruct a as [[]|r]; simpl; auto. Qed.

Lemma rejectedWith_when (t : Reason) (c : bool) (a : Result unit) :
  rejectedWith t a = false -> rejectedWith t (when c a) = false.
Proof. destruct c; simpl; auto. Qed.

Lemma rejectedWith_forEach {A : Type} (t : Reason) (f : A -> Result unit)
    (xs : list A) :
  (forall x, rejectedWith t (f x) = false) ->
  rejectedWith t (forEach f xs) = false.
Proof.
  intros Hf. induction xs as [|x xs IH]; simpl; [reflexivity|].
  apply rejectedWith_bind; auto.
Qed.

Lemma rejectedWith_FatalIf (t site : Reason) (e : option probeError)
    (args : list string) (msg : string) :
  Reason_eqb site t = false ->
  rejectedWith t (FatalIf site e args msg) = false.
Proof. destruct e; simpl; auto. Qed.

Lemma forEach_all_Ok {A : Type} (f : A -> Result unit) (xs : list A) :
  (forall x, In x xs -> f x = Ok tt) -> forEach f xs = Ok tt.
Proof.
  induction xs as [|x xs IH]; simpl; intros Hf; [reflexivity|].
  rewrite (Hf x) by auto. simpl. apply IH. auto.
Qed.

End ExitFacts.

(** Closes goals saying that an exit site is never taken, by walking the
    sequence of checks. *)
Ltac never_site :=
  repeat first
    [ reflexivity
    | apply rejectedWith_bind
    | apply rejectedWith_when
    | apply rejectedWith_FatalIf
    | apply rejectedWith_forEach; intros ?
    | match goal with
      | |- rejectedWith _ (match ?x with _ => _ end) = false => destruct x
      | |- rejectedWith _ (let _ := _ in _) = false => cbv zeta
      end ].

(** ** The argument list *)

Section ArgumentFacts.

Variables (srcURLs : list string) (tgtURL : string).

Lemma sources_of_args :
  firstn (length (srcURLs ++ [tgtURL])%list - 1) (srcURLs ++ [tgtURL])%list
  = srcURLs.
Proof.
  rewrite last_length, Nat.sub_succ, Nat.sub_0_r, firstn_app, firstn_all,
    Nat.sub_diag. simpl. apply app_nil_r.
Qed.

Lemma target_of_args :
  nth (length (srcURLs ++ [tgtURL])%list - 1) (srcURLs ++ [tgtURL])%list ""
  = tgtURL.
Proof.
  rewrite last_length, Nat.sub_succ, Nat.sub_0_r. apply nth_middle.
Qed.

Lemma enough_args :
  srcURLs <> [] -> (length (srcURLs ++ [tgtURL])%list <? 2)%nat = false.
Proof.
  intros Hne. rewrite last_length. apply Nat.ltb_ge.
  destruct srcURLs; [congruence | simpl; lia].
Qed.

End ArgumentFacts.

(** ** Source verification at the start of [checkCopySyntax] *)

Section VerificationFacts.

Variable url2Stat : string -> statResult.

Lemma verify_sourcesExist (srcURLs : list string) :
  sourcesExist url2Stat srcURLs = true -> forEach (checkCopySyntax_source url2Stat) srcURLs = Ok tt.
Proof.
  unfold sourcesExist. rewrite forallb_forall. intros Hall.
  apply forEach_all_Ok. intros u Hu. specialize (Hall u Hu). simpl in Hall.
  unfold checkCopySyntax_source.
  destruct (url2Stat u); [reflexivity | discriminate].
Qed.

Lemma verify_missing_source (srcURLs : list string) :
  sourcesExist url2Stat srcURLs = false ->
  exists u, In u srcURLs
    /\ forEach (checkCopySyntax_source url2Stat) srcURLs
       = Fatalf SourceUnverifiable ("Unable to validate source " ++ u ++ nl).
Proof.
  induction srcURLs as [|s rest IH]; simpl; [discriminate|].
  unfold checkCopySyntax_source at 1.
  destruct (url2Stat s) eqn:Hs; simpl.
  - intros Hrest. destruct (IH Hrest) as (u & Hin & Hu).
    exists u. split; [now right | exact Hu].
  - intros _. exists s. split; [now left | reflexivity].
Qed.

End VerificationFacts.

(** ** The per-shape validators *)

Section ValidatorFacts.

Variable url2Stat : string -> statResult.
Variable isURLPrefixExists : string -> bool -> bool.

(** The wording flag does not change what [checkCopySyntaxTypeC] decides
    for one source. *)
Lemma decision_TypeC_source (tgtURL : string) (isRecursive : bool)
    (srcURL : string) :
  decision (checkCopySyntaxTypeC_source url2Stat isURLPrefixExists
              tgtURL isRecursive true srcURL)
  = decision (checkCopySyntaxTypeC_source url2Stat isURLPrefixExists
                tgtURL isRecursive false srcURL).
Proof.
  unfold checkCopySyntaxTypeC_source.
  destruct (url2Stat srcURL) as [c content|err]; [|reflexivity].
  destruct (IsDir (Type_ content)), isRecursive,
    (isURLContains srcURL tgtURL (string_of_rune (Separator (GetURL c))));
    reflexivity.
Qed.

Lemma decision_TypeC (srcURLs : list string) (tgtURL : string)
    (isRecursive : bool) :
  decision (checkCopySyntaxTypeC url2Stat isURLPrefixExists srcURLs tgtURL
              isRecursive true)
  = decision (checkCopySyntaxTypeC url2Stat isURLPrefixExists srcURLs tgtURL
                isRecursive false).
Proof.
  unfold checkCopySyntaxTypeC.
  apply decision_bind; [reflexivity|].
  apply decision_bind; [reflexivity|].
  apply decision_forEach. intros s. apply decision_TypeC_source.
Qed.

Lemma decision_dispatch (t : copyURLsType) (srcURLs : list string)
    (tgtURL : string) (isRecursive : bool) :
  decision (dispatch url2Stat isURLPrefixExists t srcURLs tgtURL
              isRecursive true)
  = decision (dispatch url2Stat isURLPrefixExists t srcURLs tgtURL
                isRecursive false).
Proof.
  destruct t; simpl; try reflexivity. apply decision_TypeC.
Qed.

(** With a single source the count check of a validator passes and the
    loop of [checkCopySyntaxTypeC] runs its body once. *)
Lemma TypeC_single (srcURL tgtURL : string) (isRecursive isMvCmd : bool) :
  checkCopySyntaxTypeC url2Stat isURLPrefixExists [srcURL] tgtURL
    isRecursive isMvCmd
  = (checkCopySyntaxTypeD url2Stat [srcURL] tgtURL isMvCmd ;;
     checkCopySyntaxTypeC_source url2Stat isURLPrefixExists tgtURL
       isRecursive isMvCmd srcURL).
Proof.
  unfold checkCopySyntaxTypeC, checkCopySyntaxTypeD. simpl.
  destruct (url2Stat tgtURL) as [c k|e]; simpl.
  - destruct (IsDir (Type_ k)); simpl; [|reflexivity].
    now destruct (checkCopySyntaxTypeC_source _ _ _ _ _ _) as [[]|].
  - now destruct (checkCopySyntaxTypeC_source _ _ _ _ _ _) as [[]|].
Qed.

(** What the target check of [checkCopySyntaxTypeD] answers. *)
Lemma TypeD_target (srcURLs : list string) (tgtURL : string)
    (isMvCmd : bool) :
  checkCopySyntaxTypeD url2Stat srcURLs tgtURL isMvCmd
  = if targetIsFolderOrMissing url2Stat tgtURL then Accepted
    else Fatal (targetNotFolder tgtURL).
Proof.
  unfold checkCopySyntaxTypeD, targetIsFolderOrMissing.
  destruct (url2Stat tgtURL) as [c k|e]; [|reflexivity].
  destruct (IsDir (Type_ k)); reflexivity.
Qed.

(** The validators have no exit of their own for a failed guess or for
    the retention flags. *)
Lemma dispatch_never (t : Reason) (ty : copyURLsType)
    (srcURLs : list string) (tgtURL : string) (isRecursive isMvCmd : bool) :
  ty <> copyURLsTypeInvalid \/ Reason_eqb UnableToGuess t = false ->
  Reason_eqb InvalidArgumentCount t = false ->
  Reason_eqb SourceStatFailed t = false ->
  Reason_eqb SourceNotRegular t = false ->
  Reason_eqb TargetNotFolder t = false ->
  Reason_eqb RecursiveRequired t = false ->
  Reason_eqb SelfContainment t = false ->
  rejectedWith t (dispatch url2Stat isURLPrefixExists ty srcURLs tgtURL
                    isRecursive isMvCmd) = false.
Proof.
  intros Hty H1 H2 H3 H4 H5 H6.
  destruct ty; simpl.
  - destruct Hty as [Hty|Hty]; [congruence|]. simpl. exact Hty.
  - unfold checkCopySyntaxTypeA. never_site; assumption.
  - unfold checkCopySyntaxTypeB. never_site; assumption.
  - unfold checkCopySyntaxTypeC, checkCopySyntaxTypeC_source.
    never_site; assumption.
  - unfold checkCopySyntaxTypeD. never_site; assumption.
Qed.

End ValidatorFacts.

(** ** Move against copy *)

(** C9.  For the same arguments, flags and stat facts, [checkCopySyntax]
    takes the same decision for a move as for a copy: it accepts in both
    cases or leaves through the same exit with the same error and the same
    traced location.  Only the message may differ. *)
Theorem C9_move_and_copy_decide_alike :
  forall (url2Stat : string -> statResult)
         (isURLPrefixExists : string -> bool -> bool)
         (newClientURL : string -> ClientURL)
         (guessCopyURLType :
            list string -> string -> bool -> copyURLsType * option probeError)
         (rdFlag rmFlag GOOS : string) (cliCtx : cli.Context),
    decision (checkCopySyntax url2Stat isURLPrefixExists newClientURL
                guessCopyURLType rdFlag rmFlag GOOS cliCtx true)
    = decision (checkCopySyntax url2Stat isURLPrefixExists newClientURL
                  guessCopyURLType rdFlag rmFlag GOOS cliCtx false).
Proof.
  intros. unfold checkCopySyntax. cbv zeta.
  apply decision_bind; [apply decision_when; reflexivity|].
  do 5 (apply decision_bind; [reflexivity|]).
  destruct (guessCopyURLType _ _ _) as [ty err].
  apply decision_bind; [apply decision_when; reflexivity|].
  apply decision_bind; [apply decision_dispatch | reflexivity].
Qed.

(** ** The target check *)

(** After classification: a request with an existing target that is not a
    directory is either classified as file-to-file or rejected for its
    target by the validator it is dispatched to. *)
Lemma classified_target_check
    (url2Stat : string -> statResult)
    (isURLPrefixExists : string -> bool -> bool)
    (srcURLs : list string) (tgtURL : string) (isRecursive isMvCmd : bool)
    (c : Client) (k : ClientContent) :
  srcURLs <> [] ->
  url2Stat tgtURL = StatOk c k ->
  IsDir (Type_ k) = false ->
  fst (guessCopyURLType_spec url2Stat srcURLs tgtURL isRecursive)
  = copyURLsTypeA
  \/ dispatch url2Stat isURLPrefixExists
       (fst (guessCopyURLType_spec url2Stat srcURLs tgtURL isRecursive))
       srcURLs tgtURL isRecursive isMvCmd
     = Fatal (targetNotFolder tgtURL).
Proof.
  intros Hne Ht Hk.
  assert (Hbad : targetIsFolderOrMissing url2Stat tgtURL = false)
    by (unfold targetIsFolderOrMissing; now rewrite Ht).
  destruct srcURLs as [|s [|s' rest]]; [congruence | |].
  - unfold guessCopyURLType_spec, classify. simpl.
    rewrite Ht. simpl. rewrite Hk.
    destruct (kindOf (url2Stat s)); simpl; auto; right;
      now rewrite TypeC_single, TypeD_target, Hbad.
  - right. unfold guessCopyURLType_spec, classify. simpl.
    now rewrite TypeD_target, Hbad.
Qed.

(** C8.  In the shapes FileToFolder (one source, a regular file),
    TreeToFolder (one source) and ManyToFolder (any sources): a target that
    exists and is not a directory is rejected as not being a folder; a
    target that does not exist is never rejected on that ground, and
    TreeToFolder then goes on to its source, the other two accept. *)
Theorem C8_target_must_be_folder_when_present :
  forall (url2Stat : string -> statResult)
         (isURLPrefixExists : string -> bool -> bool)
         (tgtURL : string) (isRecursive isMvCmd : bool),
    (forall c k,
        url2Stat tgtURL = StatOk c k -> IsDir (Type_ k) = false ->
        (forall srcURL cs ks,
            url2Stat srcURL = StatOk cs ks -> IsRegular (Type_ ks) = true ->
            checkCopySyntaxTypeB url2Stat [srcURL] tgtURL isMvCmd
            = Fatal (targetNotFolder tgtURL))
        /\ (forall srcURL,
               checkCopySyntaxTypeC url2Stat isURLPrefixExists [srcURL] tgtURL
                 isRecursive isMvCmd
               = Fatal (targetNotFolder tgtURL))
        /\ (forall srcURLs,
               checkCopySyntaxTypeD url2Stat srcURLs tgtURL isMvCmd
               = Fatal (targetNotFolder tgtURL)))
    /\ (forall e,
           url2Stat tgtURL = StatErr e ->
           (forall srcURL cs ks,
               url2Stat srcURL = StatOk cs ks -> IsRegular (Type_ ks) = true ->
               checkCopySyntaxTypeB url2Stat [srcURL] tgtURL isMvCmd = Accepted)
           /\ (forall srcURL,
                  checkCopySyntaxTypeC url2Stat isURLPrefixExists [srcURL]
                    tgtURL isRecursive isMvCmd
                  = checkCopySyntaxTypeC_source url2Stat isURLPrefixExists
                      tgtURL isRecursive isMvCmd srcURL)
           /\ (forall srcURLs,
                  checkCopySyntaxTypeD url2Stat srcURLs tgtURL isMvCmd
                  = Accepted)
           /\ (forall srcURLs,
                  rejectedWith TargetNotFolder
                    (checkCopySyntaxTypeB url2Stat srcURLs tgtURL isMvCmd)
                  = false
                  /\ rejectedWith TargetNotFolder
                       (checkCopySyntaxTypeC url2Stat isURLPrefixExists
                          srcURLs tgtURL isRecursive isMvCmd)
                     = false)).
Proof.
  intros url2Stat isURLPrefixExists tgtURL isRecursive isMvCmd. split.
  - intros c k Ht Hk. split; [|split].
    + intros srcURL cs ks Hs Hreg. unfold checkCopySyntaxTypeB. simpl.
      rewrite Hs, Hreg, Ht, Hk. reflexivity.
    + intros srcURL. rewrite TypeC_single, TypeD_target.
      unfold targetIsFolderOrMissing. rewrite Ht, Hk. reflexivity.
    + intros srcURLs. rewrite TypeD_target.
      unfold targetIsFolderOrMissing. rewrite Ht, Hk. reflexivity.
  - intros e Ht. split; [|split; [|split]].
    + intros srcURL cs ks Hs Hreg. unfold checkCopySyntaxTypeB. simpl.
      rewrite Hs, Hreg, Ht. reflexivity.
    + intros srcURL. rewrite TypeC_single, TypeD_target.
      unfold targetIsFolderOrMissing. rewrite Ht. reflexivity.
    + intros srcURLs. rewrite TypeD_target.
      unfold targetIsFolderOrMissing. rewrite Ht. reflexivity.
    + intros srcURLs. split.
      * unfold checkCopySyntaxTypeB. rewrite Ht. never_site.
      * unfold checkCopySyntaxTypeC, checkCopySyntaxTypeC_source.
        rewrite Ht. never_site.
Qed.

(** C8 on the example files: [/existing-file] as target is rejected in
    the three shapes, the missing [/backup] is not. *)
Lemma C8_target_check_on_example_files :
  checkCopySyntaxTypeB Example.url2Stat ["/a.txt"] "/existing-file" false
  = Fatal (targetNotFolder "/existing-file")
  /\ checkCopySyntaxTypeC Example.url2Stat Example.noPrefix ["/data"]
       "/existing-file" true false
     = Fatal (targetNotFolder "/existing-file")
  /\ checkCopySyntaxTypeD Example.url2Stat ["/a.txt"; "/b.txt"]
       "/existing-file" false
     = Fatal (targetNotFolder "/existing-file")
  /\ checkCopySyntaxTypeB Example.url2Stat ["/a.txt"] "/backup" false
     = Accepted
  /\ checkCopySyntaxTypeD Example.url2Stat ["/a.txt"; "/b.txt"] "/backup" false
     = Accepted.
Proof.
  destruct (C8_target_must_be_folder_when_present Example.url2Stat
              Example.noPrefix "/existing-file" true false) as [Hpresent _].
  destruct (Hpresent _ _ eq_refl eq_refl) as (HB & HC & HD).
  destruct (C8_target_must_be_folder_when_present Example.url2Stat
              Example.noPrefix "/backup" true false) as [_ Hmissing].
  destruct (Hmissing _ eq_refl) as (HB' & _ & HD' & _).
  split; [|split; [|split; [|split]]].
  - exact (HB "/a.txt" _ _ eq_refl eq_refl).
  - exact (HC "/data").
  - exact (HD ["/a.txt"; "/b.txt"]).
  - exact (HB' "/a.txt" _ _ eq_refl eq_refl).
  - exact (HD' ["/a.txt"; "/b.txt"]).
Defined.

(** ** The checks of [checkCopySyntax] that come before classification *)

Section RequestFacts.

Variable url2Stat : string -> statResult.
Variable isURLPrefixExists : string -> bool -> bool.
Variable newClientURL : string -> ClientURL.
Variable guessCopyURLType :
  list string -> string -> bool -> copyURLsType * option probeError.
Variables rdFlag rmFlag GOOS : string.

Variables (cliCtx : cli.Context) (srcURLs : list string) (tgtURL : string).
Variable isMvCmd : bool.

Hypothesis Hargs : cli.Args cliCtx = (srcURLs ++ [tgtURL])%list.
Hypothesis Hsources : srcURLs <> [].

Local Ltac enter :=
  unfold checkCopySyntax; cbv zeta; rewrite Hargs;
  rewrite (enough_args srcURLs tgtURL Hsources),
    sources_of_args, target_of_args;
  cbn [when bind].

(** A source that cannot be statted stops the command at once. *)
Lemma checkCopySyntax_unverified :
  sourcesExist url2Stat srcURLs = false ->
  exists u, In u srcURLs
    /\ checkCopySyntax url2Stat isURLPrefixExists newClientURL
      guessCopyURLType rdFlag rmFlag GOOS cliCtx isMvCmd
       = Fatalf SourceUnverifiable
               ("Unable to validate source " ++ u ++ nl).
Proof.
  intros Hmiss.
  destruct (verify_missing_source url2Stat srcURLs Hmiss) as (u & Hin & Hu).
  exists u. split; [exact Hin|]. enter. rewrite Hu. reflexivity.
Qed.

(** With verified sources, a target without a bucket name is next. *)
Lemma checkCopySyntax_no_bucket :
  sourcesExist url2Stat srcURLs = true ->
  hasBucketName (newClientURL tgtURL) = false ->
  checkCopySyntax url2Stat isURLPrefixExists newClientURL
    guessCopyURLType rdFlag rmFlag GOOS cliCtx isMvCmd
  = Fatal (mkRejection MissingBucketName (Some errInvalidArgument) []
                 ("Target `" ++ tgtURL ++ "` does not contain bucket name.")).
Proof.
  intros Hsrc Hbucket. enter.
  rewrite (verify_sourcesExist url2Stat srcURLs Hsrc). cbn [bind].
  unfold hasBucketName in Hbucket. apply negb_false_iff in Hbucket.
  apply andb_true_iff in Hbucket. destruct Hbucket as [Hhost Hpath].
  rewrite Hhost, Hpath. reflexivity.
Qed.

(** With verified sources and a bucket name, an incomplete retention
    pair is next, whatever the classifier would answer. *)
Lemma checkCopySyntax_retention :
  sourcesExist url2Stat srcURLs = true ->
  hasBucketName (newClientURL tgtURL) = true ->
  xorb (cli.String cliCtx rdFlag =? "") (cli.String cliCtx rmFlag =? "")
  = true ->
  checkCopySyntax url2Stat isURLPrefixExists newClientURL
    guessCopyURLType rdFlag rmFlag GOOS cliCtx isMvCmd
  = Fatal (mkRejection IncompleteRetentionPair (Some errInvalidArgument)
                 [] (retentionMessage rdFlag rmFlag)).
Proof.
  intros Hsrc Hbucket Hxor. enter.
  rewrite (verify_sourcesExist url2Stat srcURLs Hsrc). cbn [bind].
  unfold hasBucketName in Hbucket. apply negb_true_iff in Hbucket.
  replace (negb (Host (newClientURL tgtURL) =? ""))
    with (negb (Host (newClientURL tgtURL) =? "")
          && negb (Path (newClientURL tgtURL)
                   =? string_of_rune (Separator (newClientURL tgtURL))))
    by (destruct (Host (newClientURL tgtURL) =? ""),
          (Path (newClientURL tgtURL)
           =? string_of_rune (Separator (newClientURL tgtURL)));
        simpl in *; congruence).
  destruct (Host (newClientURL tgtURL) =? ""),
    (Path (newClientURL tgtURL)
     =? string_of_rune (Separator (newClientURL tgtURL)));
    simpl in Hbucket; try discriminate; cbn [negb andb when bind];
    destruct (cli.String cliCtx rdFlag =? ""),
      (cli.String cliCtx rmFlag =? "");
    simpl in Hxor; try discriminate; reflexivity.
Qed.

End RequestFacts.

(** A complete or absent retention pair never leads to the retention
    exit. *)
Lemma checkCopySyntax_retention_passes
    (url2Stat : string -> statResult)
    (isURLPrefixExists : string -> bool -> bool)
    (newClientURL : string -> ClientURL)
    (guessCopyURLType :
       list string -> string -> bool -> copyURLsType * option probeError)
    (rdFlag rmFlag GOOS : string) (cliCtx : cli.Context) (isMvCmd : bool) :
  xorb (cli.String cliCtx rdFlag =? "") (cli.String cliCtx rmFlag =? "")
  = false ->
  rejectedWith IncompleteRetentionPair
    (checkCopySyntax url2Stat isURLPrefixExists newClientURL guessCopyURLType
       rdFlag rmFlag GOOS cliCtx isMvCmd) = false.
Proof.
  intros Hxor. unfold checkCopySyntax, checkCopySyntax_source,
    ShowCommandHelpAndExit, Fatalf. cbv zeta.
  destruct (cli.String cliCtx rdFlag =? ""), (cli.String cliCtx rmFlag =? "");
    simpl in Hxor; try discriminate; cbn [negb andb];
    never_site; apply dispatch_never; auto.
Qed.

(** ** Sources that cannot be statted *)

(** C1, as the code has it.  When the stat of a source fails:
    [checkCopySyntaxTypeC] (TreeToFolder), given a target that is missing or
    a folder, accepts exactly when [isURLPrefixExists] finds something under
    the source prefix, and otherwise exits on the stat error;
    [checkCopySyntaxTypeA] and [checkCopySyntaxTypeB] always exit on the stat
    error; and [checkCopySyntax] as a whole exits on any request having such
    a source, in its verification loop, before any shape is guessed. *)
Theorem C1_source_stat_failure :
  forall (url2Stat : string -> statResult)
         (isURLPrefixExists : string -> bool -> bool)
         (srcURL tgtURL : string) (err : probeError)
         (isRecursive isMvCmd : bool),
    url2Stat srcURL = StatErr err ->
    (targetIsFolderOrMissing url2Stat tgtURL = true ->
     checkCopySyntaxTypeC url2Stat isURLPrefixExists [srcURL] tgtURL
       isRecursive isMvCmd
     = if isURLPrefixExists srcURL false then Accepted
       else Fatal (sourceStatFailed err srcURL))
    /\ checkCopySyntaxTypeA url2Stat [srcURL] tgtURL isMvCmd
       = Fatal (sourceStatFailed err srcURL)
    /\ checkCopySyntaxTypeB url2Stat [srcURL] tgtURL isMvCmd
       = Fatal (sourceStatFailed err srcURL)
    /\ (forall (newClientURL : string -> ClientURL)
               (guessCopyURLType :
                  list string -> string -> bool
                  -> copyURLsType * option probeError)
               (rdFlag rmFlag GOOS : string) (cliCtx : cli.Context)
               (srcURLs : list string),
           cli.Args cliCtx = (srcURLs ++ [tgtURL])%list ->
           In srcURL srcURLs ->
           exists u, In u srcURLs
             /\ checkCopySyntax url2Stat isURLPrefixExists newClientURL
                  guessCopyURLType rdFlag rmFlag GOOS cliCtx isMvCmd
                = Fatalf SourceUnverifiable
                    ("Unable to validate source " ++ u ++ nl)).
Proof.
  intros url2Stat isURLPrefixExists srcURL tgtURL err isRecursive isMvCmd Hs.
  split; [|split; [|split]].
  - intros Ht. rewrite TypeC_single, TypeD_target, Ht. cbn [Accepted bind].
    unfold checkCopySyntaxTypeC_source. rewrite Hs.
    destruct (isURLPrefixExists srcURL false); reflexivity.
  - unfold checkCopySyntaxTypeA. simpl. rewrite Hs. reflexivity.
  - unfold checkCopySyntaxTypeB. simpl. rewrite Hs. reflexivity.
  - intros newClientURL guessCopyURLType rdFlag rmFlag GOOS cliCtx srcURLs
      Hargs Hin.
    apply checkCopySyntax_unverified with (srcURLs := srcURLs) (tgtURL := tgtURL);
      [exact Hargs | intros ->; destruct Hin |].
    destruct (sourcesExist url2Stat srcURLs) eqn:Hall; [|reflexivity].
    unfold sourcesExist in Hall. rewrite forallb_forall in Hall.
    specialize (Hall srcURL Hin). rewrite Hs in Hall. discriminate.
Qed.

(** C1 on the example files, for the missing source [/nosuch]. *)
Lemma C1_missing_source_on_example_files :
  checkCopySyntaxTypeC Example.url2Stat Example.anyPrefix ["/nosuch"]
    "/backup" true false = Accepted
  /\ checkCopySyntaxTypeC Example.url2Stat Example.noPrefix ["/nosuch"]
       "/backup" true false
     = Fatal (sourceStatFailed (errStorage "no such file or directory")
                "/nosuch")
  /\ checkCopySyntaxTypeA Example.url2Stat ["/nosuch"] "/backup" false
     = Fatal (sourceStatFailed (errStorage "no such file or directory")
                "/nosuch")
  /\ checkCopySyntax Example.url2Stat Example.anyPrefix Example.newClientURL
       (guessCopyURLType_spec Example.url2Stat) Example.rdFlag Example.rmFlag
       "linux" (Example.context ["/nosuch"; "/backup"] true "" "") false
     = Fatalf SourceUnverifiable ("Unable to validate source /nosuch" ++ nl).
Proof.
  destruct (C1_source_stat_failure Example.url2Stat Example.anyPrefix
              "/nosuch" "/backup" _ true false eq_refl)
    as (Hany & HA & _ & Hwhole).
  destruct (C1_source_stat_failure Example.url2Stat Example.noPrefix
              "/nosuch" "/backup" _ true false eq_refl)
    as (Hnone & _).
  split; [|split; [|split]].
  - exact (Hany eq_refl).
  - exact (Hnone eq_refl).
  - exact HA.
  - destruct (Hwhole Example.newClientURL
                (guessCopyURLType_spec Example.url2Stat) Example.rdFlag
                Example.rmFlag "linux"
                (Example.context ["/nosuch"; "/backup"] true "" "")
                ["/nosuch"] eq_refl (or_introl eq_refl))
      as (u & Hin & Hu).
    destruct Hin as [<-|[]]. exact Hu.
Defined.

(** C1 as the specification states it fails: a single missing source is
    classified TreeToFolder, yet [checkCopySyntaxTypeC] exits on the stat
    error when nothing lives under the prefix, and [checkCopySyntax] exits
    in its verification loop even when something does. *)
Lemma C1_missing_source_is_rejected :
  kindOf (Example.url2Stat "/nosuch") = Missing
  /\ guessCopyURLType_spec Example.url2Stat ["/nosuch"] "/backup" true
     = (copyURLsTypeC, None)
  /\ checkCopySyntaxTypeC Example.url2Stat Example.noPrefix ["/nosuch"]
       "/backup" true false
     = Fatal (mkRejection SourceStatFailed
                (Some (errStorage "no such file or directory")) ["/nosuch"]
                "Unable to stat source `/nosuch`.")
  /\ checkCopySyntax Example.url2Stat Example.anyPrefix Example.newClientURL
       (guessCopyURLType_spec Example.url2Stat) Example.rdFlag Example.rmFlag
       "linux" (Example.context ["/nosuch"; "/backup"] true "" "") false
     = Fatal (mkRejection SourceUnverifiable None []
                ("Unable to validate source /nosuch" ++ nl)).
Proof. repeat split. Qed.

(** ** Several sources *)

(** C2, as the code has it.  [checkCopySyntaxTypeD] (ManyToFolder) looks at
    the target only: whatever the sources are, whether or not some are
    directories, and whatever the recursive flag, it accepts when the target
    is missing or a folder and otherwise rejects the target as not being a
    folder.  No source is examined. *)
Theorem C2_many_sources_checks_target_only :
  forall (url2Stat : string -> statResult)
         (isURLPrefixExists : string -> bool -> bool)
         (srcURLs : list string) (tgtURL : string)
         (isRecursive isMvCmd : bool),
    dispatch url2Stat isURLPrefixExists copyURLsTypeD srcURLs tgtURL
      isRecursive isMvCmd
    = checkCopySyntaxTypeD url2Stat srcURLs tgtURL isMvCmd
    /\ checkCopySyntaxTypeD url2Stat srcURLs tgtURL isMvCmd
       = if targetIsFolderOrMissing url2Stat tgtURL then Accepted
         else Fatal (targetNotFolder tgtURL).
Proof.
  intros. split; [reflexivity | apply TypeD_target].
Qed.

(** C2 as the specification states it fails: with two sources of which
    [/data] is a directory, the per-source rule of TreeToFolder would reject
    [/data] (no recursive flag; or target inside it), but the ManyToFolder
    validator accepts both requests. *)
Lemma C2_directory_source_unchecked :
  guessCopyURLType_spec Example.url2Stat ["/data"; "/a.txt"] "/srv" false
  = (copyURLsTypeD, None)
  /\ checkCopySyntaxTypeC_source Example.url2Stat Example.noPrefix "/srv"
       false false "/data"
     = Fatal (mkRejection RecursiveRequired (Some errInvalidArgument)
                ["/data"] "To copy a folder requires --recursive flag.")
  /\ checkCopySyntaxTypeD Example.url2Stat ["/data"; "/a.txt"] "/srv" false
     = Accepted
  /\ checkCopySyntaxTypeC_source Example.url2Stat Example.noPrefix
       "/data/logs" true false "/data"
     = Fatal (mkRejection SelfContainment (Some errInvalidArgument) []
                "Copying a folder into itself is not allowed.")
  /\ checkCopySyntaxTypeD Example.url2Stat ["/data"; "/a.txt"] "/data/logs"
       false
     = Accepted
  /\ checkCopySyntax Example.url2Stat Example.noPrefix Example.newClientURL
       (guessCopyURLType_spec Example.url2Stat) Example.rdFlag Example.rmFlag
       "linux" (Example.context ["/data"; "/a.txt"; "/data/logs"] false "" "")
       false
     = Accepted.
Proof. repeat split. Qed.

(** ** A single directory source *)

(** C4, as the code has it.  For a single source that exists and is a
    directory, with the recursive flag set and a target that is missing or
    a folder: [checkCopySyntaxTypeC] rejects the request as self-containing
    exactly when the containment predicate holds of source and target, and
    accepts it otherwise. *)
Theorem C4_directory_into_itself :
  forall (url2Stat : string -> statResult)
         (isURLPrefixExists : string -> bool -> bool)
         (srcURL tgtURL : string) (c : Client) (srcContent : ClientContent)
         (isMvCmd : bool),
    url2Stat srcURL = StatOk c srcContent ->
    IsDir (Type_ srcContent) = true ->
    targetIsFolderOrMissing url2Stat tgtURL = true ->
    checkCopySyntaxTypeC url2Stat isURLPrefixExists [srcURL] tgtURL true
      isMvCmd
    = if isURLContains srcURL tgtURL (string_of_rune (Separator (GetURL c)))
      then Fatal (selfContainment isMvCmd)
      else Accepted.
Proof.
  intros url2Stat isURLPrefixExists srcURL tgtURL c srcContent isMvCmd
    Hs Hdir Ht.
  rewrite TypeC_single, TypeD_target, Ht. cbn [Accepted bind].
  unfold checkCopySyntaxTypeC_source. rewrite Hs, Hdir.
  destruct (isURLContains _ _ _); reflexivity.
Qed.

(** C4 on the example files: [/data/logs] into [/data/logs/archive] is
    rejected, [/data/logs] into [/srv] is accepted. *)
Lemma C4_logs_into_archive :
  checkCopySyntaxTypeC Example.url2Stat Example.noPrefix ["/data/logs"]
    "/data/logs/archive" true false
  = Fatal (selfContainment false)
  /\ checkCopySyntaxTypeC Example.url2Stat Example.noPrefix ["/data/logs"]
       "/srv" true true
     = Accepted.
Proof.
  split.
  - exact (C4_directory_into_itself Example.url2Stat Example.noPrefix
             "/data/logs" "/data/logs/archive" _ _ false
             eq_refl eq_refl eq_refl).
  - exact (C4_directory_into_itself Example.url2Stat Example.noPrefix
             "/data/logs" "/srv" _ _ true eq_refl eq_refl eq_refl).
Defined.

(** C4 as the specification states it fails: [/data] is a directory and
    contains the target [/data/report.txt], the recursive flag is set, but
    the target exists as a file and the request is rejected for that, not
    for self-containment. *)
Lemma C4_file_target_inside_source :
  isURLContains "/data" "/data/report.txt" "/" = true
  /\ guessCopyURLType_spec Example.url2Stat ["/data"] "/data/report.txt" true
     = (copyURLsTypeC, None)
  /\ checkCopySyntaxTypeC Example.url2Stat Example.noPrefix ["/data"]
       "/data/report.txt" true false
     = Fatal (mkRejection TargetNotFolder (Some errInvalidArgument)
                ["/data/report.txt"]
                "Target `/data/report.txt` is not a folder.").
Proof. repeat split. Qed.

(** C5, as the code has it.  For a single source that exists and is a
    directory and a target that is missing or a folder:
    [checkCopySyntaxTypeC] rejects the request for want of the recursive
    flag when the flag is not set, and accepts it when the flag is set and
    the source does not contain the target. *)
Theorem C5_directory_needs_recursive :
  forall (url2Stat : string -> statResult)
         (isURLPrefixExists : string -> bool -> bool)
         (srcURL tgtURL : string) (c : Client) (srcContent : ClientContent)
         (isMvCmd : bool),
    url2Stat srcURL = StatOk c srcContent ->
    IsDir (Type_ srcContent) = true ->
    targetIsFolderOrMissing url2Stat tgtURL = true ->
    checkCopySyntaxTypeC url2Stat isURLPrefixExists [srcURL] tgtURL false
      isMvCmd
    = Fatal (recursiveRequired isMvCmd srcURL)
    /\ (isURLContains srcURL tgtURL (string_of_rune (Separator (GetURL c)))
        = false ->
        checkCopySyntaxTypeC url2Stat isURLPrefixExists [srcURL] tgtURL true
          isMvCmd
        = Accepted).
Proof.
  intros url2Stat isURLPrefixExists srcURL tgtURL c srcContent isMvCmd
    Hs Hdir Ht.
  split.
  - rewrite TypeC_single, TypeD_target, Ht. cbn [Accepted bind].
    unfold checkCopySyntaxTypeC_source. rewrite Hs, Hdir. reflexivity.
  - intros Hout. rewrite TypeC_single, TypeD_target, Ht. cbn [Accepted bind].
    unfold checkCopySyntaxTypeC_source. rewrite Hs, Hdir, Hout. reflexivity.
Qed.

(** C5 on the example files: [/data] into the missing [/backup], without
    and with the recursive flag. *)
Lemma C5_data_to_backup :
  checkCopySyntaxTypeC Example.url2Stat Example.noPrefix ["/data"] "/backup"
    false false
  = Fatal (recursiveRequired false "/data")
  /\ checkCopySyntaxTypeC Example.url2Stat Example.noPrefix ["/data"]
       "/backup" true false
     = Accepted.
Proof.
  destruct (C5_directory_needs_recursive Example.url2Stat Example.noPrefix
              "/data" "/backup" _ _ false eq_refl eq_refl eq_refl)
    as [Hflat Hdeep].
  split; [exact Hflat | exact (Hdeep eq_refl)].
Defined.

(** C5 as the specification states it fails: [/data] is a directory and
    the recursive flag is not set, but the target exists as a file and the
    request is rejected for that, not for the missing flag. *)
Lemma C5_file_target_reported_first :
  guessCopyURLType_spec Example.url2Stat ["/data"] "/existing-file" false
  = (copyURLsTypeC, None)
  /\ checkCopySyntaxTypeC Example.url2Stat Example.noPrefix ["/data"]
       "/existing-file" false false
     = Fatal (mkRejection TargetNotFolder (Some errInvalidArgument)
                ["/existing-file"]
                "Target `/existing-file` is not a folder.").
Proof. repeat split. Qed.

(** ** Retention flags and bucket names *)

(** C7, as the code has it.  For a request with at least one source, all
    of whose sources stat without error and whose target is not a remote
    alias lacking a bucket name, and whatever the classifier would answer:
    if exactly one of the two retention flags is set, [checkCopySyntax]
    rejects with the incomplete-retention-pair error; if both or neither are
    set, it never does. *)
Theorem C7_retention_flags_go_together :
  forall (url2Stat : string -> statResult)
         (isURLPrefixExists : string -> bool -> bool)
         (newClientURL : string -> ClientURL)
         (guessCopyURLType :
            list string -> string -> bool -> copyURLsType * option probeError)
         (rdFlag rmFlag GOOS : string) (cliCtx : cli.Context)
         (srcURLs : list string) (tgtURL : string) (isMvCmd : bool),
    cli.Args cliCtx = (srcURLs ++ [tgtURL])%list ->
    srcURLs <> [] ->
    sourcesExist url2Stat srcURLs = true ->
    hasBucketName (newClientURL tgtURL) = true ->
    (xorb (cli.String cliCtx rdFlag =? "") (cli.String cliCtx rmFlag =? "")
     = true ->
     checkCopySyntax url2Stat isURLPrefixExists newClientURL guessCopyURLType
       rdFlag rmFlag GOOS cliCtx isMvCmd
     = Fatal (mkRejection IncompleteRetentionPair (Some errInvalidArgument)
                [] (retentionMessage rdFlag rmFlag)))
    /\ (xorb (cli.String cliCtx rdFlag =? "") (cli.String cliCtx rmFlag =? "")
        = false ->
        rejectedWith IncompleteRetentionPair
          (checkCopySyntax url2Stat isURLPrefixExists newClientURL
             guessCopyURLType rdFlag rmFlag GOOS cliCtx isMvCmd)
        = false).
Proof.
  intros url2Stat isURLPrefixExists newClientURL guessCopyURLType
    rdFlag rmFlag GOOS cliCtx srcURLs tgtURL isMvCmd Hargs Hne Hsrc Hbucket.
  split.
  - intros Hxor. now apply checkCopySyntax_retention with srcURLs tgtURL.
  - apply checkCopySyntax_retention_passes.
Qed.

(** C7 on the example files: mode [COMPLIANCE] without a duration, and
    with one. *)
Lemma C7_compliance_without_duration :
  checkCopySyntax Example.url2Stat Example.noPrefix Example.newClientURL
    (guessCopyURLType_spec Example.url2Stat) Example.rdFlag Example.rmFlag
    "linux" (Example.context ["/a.txt"; "/backup"] false "" "COMPLIANCE")
    false
  = Fatal (mkRejection IncompleteRetentionPair (Some errInvalidArgument) []
             (retentionMessage Example.rdFlag Example.rmFlag))
  /\ rejectedWith IncompleteRetentionPair
       (checkCopySyntax Example.url2Stat Example.noPrefix Example.newClientURL
          (guessCopyURLType_spec Example.url2Stat) Example.rdFlag
          Example.rmFlag "linux"
          (Example.context ["/a.txt"; "/backup"] false "30d" "COMPLIANCE")
          false)
     = false.
Proof.
  split.
  - refine (proj1 (C7_retention_flags_go_together Example.url2Stat
                     Example.noPrefix Example.newClientURL
                     (guessCopyURLType_spec Example.url2Stat) Example.rdFlag
                     Example.rmFlag "linux"
                     (Example.context ["/a.txt"; "/backup"] false ""
                        "COMPLIANCE")
                     ["/a.txt"] "/backup" false eq_refl _ eq_refl eq_refl)
                  eq_refl).
    discriminate.
  - refine (proj2 (C7_retention_flags_go_together Example.url2Stat
                     Example.noPrefix Example.newClientURL
                     (guessCopyURLType_spec Example.url2Stat) Example.rdFlag
                     Example.rmFlag "linux"
                     (Example.context ["/a.txt"; "/backup"] false "30d"
                        "COMPLIANCE")
                     ["/a.txt"] "/backup" false eq_refl _ eq_refl eq_refl)
                  eq_refl).
    discriminate.
Defined.

(** C7 as the specification states it fails: the retention mode is set
    without a duration, yet the request is rejected for its missing source,
    and another one for its target lacking a bucket name. *)
Lemma C7_earlier_checks_win :
  checkCopySyntax Example.url2Stat Example.noPrefix Example.newClientURL
    (guessCopyURLType_spec Example.url2Stat) Example.rdFlag Example.rmFlag
    "linux" (Example.context ["/nosuch"; "/backup"] false "" "COMPLIANCE")
    false
  = Fatal (mkRejection SourceUnverifiable None []
             ("Unable to validate source /nosuch" ++ nl))
  /\ checkCopySyntax Example.url2Stat Example.noPrefix Example.newClientURL
       (guessCopyURLType_spec Example.url2Stat) Example.rdFlag Example.rmFlag
       "linux"
       (Example.context ["/a.txt"; "https://play.min.io/"] false ""
          "COMPLIANCE")
       false
     = Fatal (mkRejection MissingBucketName (Some errInvalidArgument) []
                "Target `https://play.min.io/` does not contain bucket name.").
Proof. repeat split. Qed.

(** C10, as the code has it.  For a request with at least one source, all
    of whose sources stat without error: if the target URL has a non-empty
    host and its path is exactly the separator, [checkCopySyntax] rejects
    with the invalid-argument error about the missing bucket name, for
    every classifier answer and every combination of flags; neither
    classification nor a per-shape validator is reached. *)
Theorem C10_target_needs_bucket_name :
  forall (url2Stat : string -> statResult)
         (isURLPrefixExists : string -> bool -> bool)
         (newClientURL : string -> ClientURL)
         (guessCopyURLType :
            list string -> string -> bool -> copyURLsType * option probeError)
         (rdFlag rmFlag GOOS : string) (cliCtx : cli.Context)
         (srcURLs : list string) (tgtURL : string) (isMvCmd : bool),
    cli.Args cliCtx = (srcURLs ++ [tgtURL])%list ->
    srcURLs <> [] ->
    sourcesExist url2Stat srcURLs = true ->
    Host (newClientURL tgtURL) <> "" ->
    Path (newClientURL tgtURL)
    = string_of_rune (Separator (newClientURL tgtURL)) ->
    checkCopySyntax url2Stat isURLPrefixExists newClientURL guessCopyURLType
      rdFlag rmFlag GOOS cliCtx isMvCmd
    = Fatal (mkRejection MissingBucketName (Some errInvalidArgument) []
               ("Target `" ++ tgtURL ++ "` does not contain bucket name.")).
Proof.
  intros url2Stat isURLPrefixExists newClientURL guessCopyURLType
    rdFlag rmFlag GOOS cliCtx srcURLs tgtURL isMvCmd
    Hargs Hne Hsrc Hhost Hpath.
  apply checkCopySyntax_no_bucket with srcURLs; try assumption.
  unfold hasBucketName. apply String.eqb_neq in Hhost.
  rewrite Hhost, Hpath, String.eqb_refl. reflexivity.
Qed.

(** C10 on the example files: the alias [https://play.min.io/] as
    target. *)
Lemma C10_alias_without_bucket :
  checkCopySyntax Example.url2Stat Example.noPrefix Example.newClientURL
    (guessCopyURLType_spec Example.url2Stat) Example.rdFlag Example.rmFlag
    "linux" (Example.context ["/a.txt"; "https://play.min.io/"] true "" "")
    true
  = Fatal (mkRejection MissingBucketName (Some errInvalidArgument) []
             "Target `https://play.min.io/` does not contain bucket name.").
Proof.
  refine (C10_target_needs_bucket_name Example.url2Stat Example.noPrefix
            Example.newClientURL (guessCopyURLType_spec Example.url2Stat)
            Example.rdFlag Example.rmFlag "linux"
            (Example.context ["/a.txt"; "https://play.min.io/"] true "" "")
            ["/a.txt"] "https://play.min.io/" true
            eq_refl _ eq_refl _ eq_refl); discriminate.
Defined.

(** C10 as stated for all source lists fails: the target is a remote alias
    without a bucket name, but the source is missing and the request is
    rejected for that in the verification loop. *)
Lemma C10_missing_source_reported_first :
  Host (Example.newClientURL "https://play.min.io/") = "play.min.io"
  /\ Path (Example.newClientURL "https://play.min.io/") = "/"
  /\ checkCopySyntax Example.url2Stat Example.noPrefix Example.newClientURL
       (guessCopyURLType_spec Example.url2Stat) Example.rdFlag Example.rmFlag
       "linux" (Example.context ["/nosuch"; "https://play.min.io/"] true "" "")
       false
     = Fatal (mkRejection SourceUnverifiable None []
                ("Unable to validate source /nosuch" ++ nl)).
Proof. repeat split. Qed.

(* ================================================================== *)
(** ** Classification as [checkCopySyntax] receives it *)

Section GuessFacts.

Variable url2Stat : string -> statResult.



Variable isURLPrefixExists : string -> bool -> bool.
Variable newClientURL : string -> ClientURL.
Variable guessCopyURLType :
  list string -> string -> bool -> copyURLsType * option probeError.
Variables rdFlag rmFlag GOOS : string.
Variables (cliCtx : cli.Context) (srcURLs : list string) (tgtURL : string).
Variable isMvCmd : bool.

Hypothesis Hargs : cli.Args cliCtx = (srcURLs ++ [tgtURL])%list.
Hypothesis Hsources : srcURLs <> [].

(** The command once the argument list is known to be sources followed by
    a target, and the sources to be verified: what is left is the bucket
    check, the retention check, the guess, the dispatch and the platform
    check. *)
Lemma checkCopySyntax_verified :
  sourcesExist url2Stat srcURLs = true ->
  checkCopySyntax url2Stat isURLPrefixExists newClientURL guessCopyURLType
    rdFlag rmFlag GOOS cliCtx isMvCmd
  = (when (negb (Host (newClientURL tgtURL) =? ""))
       (when (Path (newClientURL tgtURL)
              =? string_of_rune (Separator (newClientURL tgtURL)))
          (FatalIf MissingBucketName (Some errInvalidArgument) []
             ("Target `" ++ tgtURL ++ "` does not contain bucket name."))) ;;
     when (negb (cli.String cliCtx rdFlag =? "")
           && (cli.String cliCtx rmFlag =? ""))
       (FatalIf IncompleteRetentionPair (Some errInvalidArgument) []
          ("Both object retention flags `--" ++ rdFlag ++ "` and `--"
           ++ rmFlag ++ "` are required." ++ nl)) ;;
     when ((cli.String cliCtx rdFlag =? "")
           && negb (cli.String cliCtx rmFlag =? ""))
       (FatalIf IncompleteRetentionPair (Some errInvalidArgument) []
          ("Both object retention flags `--" ++ rdFlag ++ "` and `--"
           ++ rmFlag ++ "` are required." ++ nl)) ;;
     when (match snd (guessCopyURLType srcURLs tgtURL
                        (cli.Bool cliCtx "recursive")) with
           | Some _ => true
           | None => false
           end)
       (Fatal (unableToGuess isMvCmd)) ;;
     dispatch url2Stat isURLPrefixExists
       (fst (guessCopyURLType srcURLs tgtURL (cli.Bool cliCtx "recursive")))
       srcURLs tgtURL (cli.Bool cliCtx "recursive") isMvCmd ;;
     when (cli.Bool cliCtx "preserve" && (GOOS =? "windows"))
       (Fatal unsupportedOnPlatform)).
Proof.
  intros Hsrc. unfold checkCopySyntax. cbv zeta. rewrite Hargs.
  rewrite (enough_args srcURLs tgtURL Hsources),
    sources_of_args, target_of_args.
  cbn [when bind].
  rewrite (verify_sourcesExist url2Stat srcURLs Hsrc). cbn [bind].
  destruct (guessCopyURLType srcURLs tgtURL (cli.Bool cliCtx "recursive"))
    as [ty err].
  reflexivity.
Qed.

End GuessFacts.




(* ================================================================== *)
(** * Further properties of the copy validators *)

Section MoreExitFacts.

Lemma bind_Accepted (a : Result unit) (k : unit -> Result unit) :
  bind a k = Ok tt <-> a = Ok tt /\ k tt = Ok tt.
Proof.
  destruct a as [[]|r]; simpl; intuition discriminate.
Qed.

Lemma when_FatalIf_Accepted (c : bool) (site : Reason) (e : probeError)
    (args : list string) (msg : string) :
  when c (FatalIf site (Some e) args msg) = Ok tt <-> c = false.
Proof. destruct c; simpl; split; congruence. Qed.



Lemma args_with_target (args : list string) :
  2 <= length args ->
  exists srcURLs tgtURL,
    args = (srcURLs ++ [tgtURL])%list /\ srcURLs <> [].
Proof.
  intros Hlen. destruct (exists_last (l := args)) as (srcURLs & tgtURL & ->).
  - intros ->. simpl in Hlen. lia.
  - exists srcURLs, tgtURL. split; [reflexivity|].
    intros ->. simpl in Hlen. lia.
Qed.

End MoreExitFacts.

(** ** What each per-shape validator accepts *)

(** X1.  [checkCopySyntaxTypeA] accepts exactly the requests with a single
    source that stats without error and is a regular file.  The target and
    the move flag play no part in it. *)
Theorem checkCopySyntaxTypeA_accepts_iff :
  forall (url2Stat : string -> statResult) (srcURLs : list string)
         (tgtURL : string) (isMvCmd : bool),
    (checkCopySyntaxTypeA url2Stat srcURLs tgtURL isMvCmd = Accepted
     <-> exists srcURL c srcContent,
           srcURLs = [srcURL]
           /\ url2Stat srcURL = StatOk c srcContent
           /\ IsRegular (Type_ srcContent) = true)
    /\ (forall (tgtURL' : string) (isMvCmd' : bool),
           checkCopySyntaxTypeA url2Stat srcURLs tgtURL' isMvCmd'
           = checkCopySyntaxTypeA url2Stat srcURLs tgtURL isMvCmd).
Proof.
  intros url2Stat srcURLs tgtURL isMvCmd. split; [|reflexivity].
  unfold checkCopySyntaxTypeA, Accepted.
  destruct srcURLs as [|s [|s' rest]]; simpl.
  - split; [discriminate | intros (x & c & k & Hx & _); discriminate].
  - destruct (url2Stat s) as [c k|e] eqn:Hs; simpl.
    + destruct (IsRegular (Type_ k)) eqn:Hreg; simpl; split.
      * intros _. now exists s, c, k.
      * reflexivity.
      * discriminate.
      * intros (x & c' & k' & [= <-] & Hx & Hreg'). congruence.
    + split; [discriminate|].
      intros (x & c' & k' & [= <-] & Hx & _). congruence.
  - split; [discriminate | intros (x & c & k & Hx & _); discriminate].
Qed.

(** X2.  [checkCopySyntaxTypeB] is [checkCopySyntaxTypeA] followed by the
    target check: it accepts exactly when the file-to-file validator accepts
    and the target is missing or a folder, and a fault of the source is
    reported before any fault of the target (same exit, error and message
    as [checkCopySyntaxTypeA]). *)
Theorem checkCopySyntaxTypeB_is_TypeA_then_target :
  forall (url2Stat : string -> statResult) (srcURLs : list string)
         (tgtURL : string) (isMvCmd : bool),
    (checkCopySyntaxTypeB url2Stat srcURLs tgtURL isMvCmd = Accepted
     <-> checkCopySyntaxTypeA url2Stat srcURLs tgtURL isMvCmd = Accepted
         /\ targetIsFolderOrMissing url2Stat tgtURL = true)
    /\ (forall j,
           checkCopySyntaxTypeA url2Stat srcURLs tgtURL isMvCmd = Fatal j ->
           exists j',
             checkCopySyntaxTypeB url2Stat srcURLs tgtURL isMvCmd = Fatal j'
             /\ reason j' = reason j /\ cause j' = cause j
             /\ message j' = message j)
    /\ (checkCopySyntaxTypeA url2Stat srcURLs tgtURL isMvCmd = Accepted ->
        checkCopySyntaxTypeB url2Stat srcURLs tgtURL isMvCmd
        = checkCopySyntaxTypeD url2Stat srcURLs tgtURL isMvCmd).
Proof.
  intros url2Stat srcURLs tgtURL isMvCmd.
  unfold checkCopySyntaxTypeA, checkCopySyntaxTypeB, checkCopySyntaxTypeD,
    targetIsFolderOrMissing, Accepted.
  destruct srcURLs as [|s [|s' rest]]; simpl.
  - split; [|split]; [intuition discriminate | | discriminate].
    intros j [= <-]. eexists. repeat split.
  - destruct (url2Stat s) as [c k|e] eqn:Hs; simpl.
    + destruct (IsRegular (Type_ k)) eqn:Hreg; simpl.
      * split; [|split]; [| discriminate | reflexivity].
        destruct (url2Stat tgtURL) as [ct kt|et]; simpl;
          [destruct (IsDir (Type_ kt)); simpl|]; intuition discriminate.
      * split; [|split]; [intuition discriminate | | discriminate].
        intros j [= <-]. eexists. repeat split.
    + split; [|split]; [intuition discriminate | | discriminate].
      intros j [= <-]. eexists. repeat split.
  - split; [|split]; [intuition discriminate | | discriminate].
    intros j [= <-]. eexists. repeat split.
Qed.

(** X3.  [checkCopySyntaxTypeC] accepts a single source exactly when the
    target is missing or a folder and the source either cannot be statted
    but has something under its prefix, or is not a directory, or is a
    directory given with the recursive flag that does not contain the
    target.  In particular a source that is not a directory needs no
    recursive flag. *)
Theorem checkCopySyntaxTypeC_accepts_iff :
  forall (url2Stat : string -> statResult)
         (isURLPrefixExists : string -> bool -> bool)
         (srcURL tgtURL : string) (isRecursive isMvCmd : bool),
    checkCopySyntaxTypeC url2Stat isURLPrefixExists [srcURL] tgtURL
      isRecursive isMvCmd = Accepted
    <-> targetIsFolderOrMissing url2Stat tgtURL = true
        /\ match url2Stat srcURL with
           | StatErr _ => isURLPrefixExists srcURL false = true
           | StatOk c srcContent =>
               IsDir (Type_ srcContent) = false
               \/ (isRecursive = true
                   /\ isURLContains srcURL tgtURL
                        (string_of_rune (Separator (GetURL c))) = false)
           end.
Proof.
  intros url2Stat isURLPrefixExists srcURL tgtURL isRecursive isMvCmd.
  rewrite TypeC_single, TypeD_target.
  destruct (targetIsFolderOrMissing url2Stat tgtURL); cbn [Accepted bind];
    [|intuition discriminate].
  unfold checkCopySyntaxTypeC_source.
  destruct (url2Stat srcURL) as [c k|e].
  - destruct (IsDir (Type_ k)), isRecursive,
      (isURLContains srcURL tgtURL (string_of_rune (Separator (GetURL c))));
      simpl; intuition discriminate.
  - destruct (isURLPrefixExists srcURL false); simpl; intuition discriminate.
Qed.

(** X4.  With no source, or with more than one, [checkCopySyntaxTypeA],
    [checkCopySyntaxTypeB] and [checkCopySyntaxTypeC] all exit on the number
    of source arguments, before any stat is looked at. *)
Theorem single_source_validators_count_sources :
  forall (url2Stat : string -> statResult)
         (isURLPrefixExists : string -> bool -> bool)
         (srcURLs : list string) (tgtURL : string)
         (isRecursive isMvCmd : bool),
    length srcURLs <> 1 ->
    checkCopySyntaxTypeA url2Stat srcURLs tgtURL isMvCmd
    = Fatal invalidArgumentCount
    /\ checkCopySyntaxTypeB url2Stat srcURLs tgtURL isMvCmd
       = Fatal invalidArgumentCount
    /\ checkCopySyntaxTypeC url2Stat isURLPrefixExists srcURLs tgtURL
         isRecursive isMvCmd
       = Fatal invalidArgumentCount.
Proof.
  intros url2Stat isURLPrefixExists srcURLs tgtURL isRecursive isMvCmd Hlen.
  apply Nat.eqb_neq in Hlen.
  unfold checkCopySyntaxTypeA, checkCopySyntaxTypeB, checkCopySyntaxTypeC.
  rewrite Hlen. repeat split.
Qed.

(** X4 on the example files: no source at all, and two sources. *)
Lemma count_sources_on_example_files :
  checkCopySyntaxTypeA Example.url2Stat [] "/backup" false
  = Fatal invalidArgumentCount
  /\ checkCopySyntaxTypeC Example.url2Stat Example.noPrefix
       ["/data"; "/srv"] "/backup" true false
     = Fatal invalidArgumentCount.
Proof.
  split.
  - refine (proj1 (single_source_validators_count_sources Example.url2Stat
                     Example.noPrefix [] "/backup" true false _)).
    discriminate.
  - refine (proj2 (proj2 (single_source_validators_count_sources
                            Example.url2Stat Example.noPrefix
                            ["/data"; "/srv"] "/backup" true false _))).
    discriminate.
Defined.

(** ** [checkCopySyntax] as a whole *)

Section WholeCommandFacts.

Variable url2Stat : string -> statResult.




End WholeCommandFacts.

(** X5.  [checkCopySyntax] given fewer than two arguments shows the help
    of [mv] or of [cp] and exits; its second length test therefore never
    fires: no input makes it exit with the message about parsing source and
    target arguments. *)
Theorem checkCopySyntax_few_arguments :
  forall (url2Stat : string -> statResult)
         (isURLPrefixExists : string -> bool -> bool)
         (newClientURL : string -> ClientURL)
         (guessCopyURLType :
            list string -> string -> bool -> copyURLsType * option probeError)
         (rdFlag rmFlag GOOS : string) (cliCtx : cli.Context)
         (isMvCmd : bool),
    (length (cli.Args cliCtx) < 2 ->
     checkCopySyntax url2Stat isURLPrefixExists newClientURL guessCopyURLType
       rdFlag rmFlag GOOS cliCtx isMvCmd
     = ShowCommandHelpAndExit (if isMvCmd then "mv" else "cp"))
    /\ rejectedWith ArgumentParse
         (checkCopySyntax url2Stat isURLPrefixExists newClientURL
            guessCopyURLType rdFlag rmFlag GOOS cliCtx isMvCmd)
       = false.
Proof.
  intros. split.
  - intros Hlen. apply Nat.ltb_lt in Hlen. unfold checkCopySyntax.
    rewrite Hlen. destruct isMvCmd; reflexivity.
  - unfold checkCopySyntax. cbv zeta.
    destruct (length (cli.Args cliCtx) <? 2)%nat eqn:Hlen.
    + destruct isMvCmd; reflexivity.
    + unfold checkCopySyntax_source, Fatalf.
      never_site. apply dispatch_never; auto.
Qed.

(** X5 on a command line holding a target only. *)
Lemma few_arguments_on_example :
  checkCopySyntax Example.url2Stat Example.noPrefix Example.newClientURL
    (fixedGuess copyURLsTypeA) Example.rdFlag Example.rmFlag "linux"
    (Example.context ["/backup"] false "" "") true
  = ShowCommandHelpAndExit "mv".
Proof.
  refine (proj1 (checkCopySyntax_few_arguments Example.url2Stat
                   Example.noPrefix Example.newClientURL
                   (fixedGuess copyURLsTypeA) Example.rdFlag Example.rmFlag
                   "linux" (Example.context ["/backup"] false "" "") true) _).
  simpl. lia.
Defined.



Lemma bind_assoc (a b c : Result unit) : ((a ;; b) ;; c) = (a ;; b ;; c).
Proof. now destruct a as [[]|r]. Qed.

(** X8.  The platform rule comes last.  With [--preserve] on windows
    [checkCopySyntax] never accepts: it behaves as on any other platform and
    then exits because permissions are not preserved, so any other fault is
    reported first.  Without [--preserve], or off windows, that exit is
    never taken. *)
Theorem checkCopySyntax_preserve_on_windows :
  forall (url2Stat : string -> statResult)
         (isURLPrefixExists : string -> bool -> bool)
         (newClientURL : string -> ClientURL)
         (guessCopyURLType :
            list string -> string -> bool -> copyURLsType * option probeError)
         (rdFlag rmFlag GOOS : string) (cliCtx : cli.Context)
         (isMvCmd : bool),
    (cli.Bool cliCtx "preserve" = true -> GOOS <> "windows" ->
     checkCopySyntax url2Stat isURLPrefixExists newClientURL guessCopyURLType
       rdFlag rmFlag "windows" cliCtx isMvCmd
     = (checkCopySyntax url2Stat isURLPrefixExists newClientURL
          guessCopyURLType rdFlag rmFlag GOOS cliCtx isMvCmd ;;
        Fatal unsupportedOnPlatform))
    /\ (cli.Bool cliCtx "preserve" && (GOOS =? "windows") = false ->
        rejectedWith UnsupportedOnPlatform
          (checkCopySyntax url2Stat isURLPrefixExists newClientURL
             guessCopyURLType rdFlag rmFlag GOOS cliCtx isMvCmd)
        = false).
Proof.
  intros. split.
  - intros Hp Hos. apply String.eqb_neq in Hos.
    destruct (Nat.lt_ge_cases (length (cli.Args cliCtx)) 2) as [Hlt|Hge].
    + unfold checkCopySyntax. apply Nat.ltb_lt in Hlt. rewrite Hlt.
      destruct isMvCmd; reflexivity.
    + destruct (args_with_target _ Hge) as (srcURLs & tgtURL & Hargs & Hne).
      destruct (sourcesExist url2Stat srcURLs) eqn:Hsrc.
      * rewrite !(checkCopySyntax_verified url2Stat isURLPrefixExists
                    newClientURL guessCopyURLType rdFlag rmFlag _ cliCtx
                    srcURLs tgtURL isMvCmd Hargs Hne Hsrc).
        rewrite Hp, Hos. change ("windows" =? "windows") with true.
        cbn [andb when].
        rewrite !bind_assoc. reflexivity.
      * unfold checkCopySyntax. cbv zeta. rewrite Hargs.
        rewrite (enough_args srcURLs tgtURL Hne), sources_of_args,
          target_of_args.
        cbn [when bind].
        destruct (verify_missing_source url2Stat srcURLs Hsrc)
          as (u & _ & ->).
        reflexivity.
  - intros Hoff. unfold checkCopySyntax, checkCopySyntax_source, Fatalf.
    cbv zeta. rewrite Hoff.
    destruct isMvCmd; never_site; apply dispatch_never; auto.
Qed.

(** X8 on the example files: a plain copy with [--preserve], on windows
    and on linux. *)
Lemma preserve_on_example_files :
  checkCopySyntax Example.url2Stat Example.noPrefix Example.newClientURL
    (fixedGuess copyURLsTypeA) Example.rdFlag Example.rmFlag "windows"
    (preservingContext ["/a.txt"; "/backup"]) false
  = Fatal unsupportedOnPlatform
  /\ rejectedWith UnsupportedOnPlatform
       (checkCopySyntax Example.url2Stat Example.noPrefix
          Example.newClientURL (fixedGuess copyURLsTypeA) Example.rdFlag
          Example.rmFlag "linux" (preservingContext ["/a.txt"; "/backup"])
          false)
     = false.
Proof.
  split.
  - refine (proj1 (checkCopySyntax_preserve_on_windows Example.url2Stat
                     Example.noPrefix Example.newClientURL
                     (fixedGuess copyURLsTypeA) Example.rdFlag Example.rmFlag
                     "linux" (preservingContext ["/a.txt"; "/backup"]) false)
                  eq_refl _).
    discriminate.
  - exact (proj2 (checkCopySyntax_preserve_on_windows Example.url2Stat
                    Example.noPrefix Example.newClientURL
                    (fixedGuess copyURLsTypeA) Example.rdFlag Example.rmFlag
                    "linux" (preservingContext ["/a.txt"; "/backup"]) false)
                 eq_refl).
Defined.

(** X9.  What [checkCopySyntax] accepts.  A command line of at least one
    source and a target is accepted exactly when every source stats without
    error, the target is not a remote alias without a bucket, the retention
    flags are both set or both unset, the classifier returns no error, the
    validator of the returned type accepts, and [--preserve] is not used on
    windows. *)
Theorem checkCopySyntax_accepts_iff :
  forall (url2Stat : string -> statResult)
         (isURLPrefixExists : string -> bool -> bool)
         (newClientURL : string -> ClientURL)
         (guessCopyURLType :
            list string -> string -> bool -> copyURLsType * option probeError)
         (rdFlag rmFlag GOOS : string) (cliCtx : cli.Context)
         (srcURLs : list string) (tgtURL : string) (isMvCmd : bool),
    cli.Args cliCtx = (srcURLs ++ [tgtURL])%list ->
    srcURLs <> [] ->
    (checkCopySyntax url2Stat isURLPrefixExists newClientURL
       guessCopyURLType rdFlag rmFlag GOOS cliCtx isMvCmd = Accepted
     <-> sourcesExist url2Stat srcURLs = true
         /\ hasBucketName (newClientURL tgtURL) = true
         /\ xorb (cli.String cliCtx rdFlag =? "")
              (cli.String cliCtx rmFlag =? "") = false
         /\ snd (guessCopyURLType srcURLs tgtURL
                   (cli.Bool cliCtx "recursive")) = None
         /\ dispatch url2Stat isURLPrefixExists
              (fst (guessCopyURLType srcURLs tgtURL
                      (cli.Bool cliCtx "recursive")))
              srcURLs tgtURL (cli.Bool cliCtx "recursive") isMvCmd
            = Accepted
         /\ cli.Bool cliCtx "preserve" && (GOOS =? "windows") = false).
Proof.
  intros url2Stat isURLPrefixExists newClientURL guessCopyURLType
    rdFlag rmFlag GOOS cliCtx srcURLs tgtURL isMvCmd Hargs Hne.
  unfold Accepted.
  destruct (sourcesExist url2Stat srcURLs) eqn:Hsrc.
  - rewrite (checkCopySyntax_verified url2Stat isURLPrefixExists
               newClientURL guessCopyURLType rdFlag rmFlag GOOS cliCtx
               srcURLs tgtURL isMvCmd Hargs Hne Hsrc).
    unfold hasBucketName.
    destruct (Host (newClientURL tgtURL) =? ""),
      (Path (newClientURL tgtURL)
       =? string_of_rune (Separator (newClientURL tgtURL)));
      destruct (cli.String cliCtx rdFlag =? ""),
        (cli.String cliCtx rmFlag =? "");
      cbn [negb andb xorb when bind FatalIf];
      try (split; [discriminate | intros (_ & H1 & H2 & _); discriminate]);
      destruct (snd (guessCopyURLType srcURLs tgtURL
                       (cli.Bool cliCtx "recursive")));
      cbn [when bind];
      try (split; [discriminate
                  | intros (_ & _ & _ & H3 & _); discriminate]);
      rewrite bind_Accepted;
      destruct (cli.Bool cliCtx "preserve" && (GOOS =? "windows"));
      cbn [when]; intuition discriminate.
  - destruct (checkCopySyntax_unverified url2Stat isURLPrefixExists
                newClientURL guessCopyURLType rdFlag rmFlag GOOS cliCtx
                srcURLs tgtURL isMvCmd Hargs Hne Hsrc) as (u & _ & ->).
    split; [discriminate | intros [H _]; discriminate].
Qed.

(** X9 on the example files: a plain copy of a file is accepted. *)
Lemma accepted_copy_on_example_files :
  checkCopySyntax Example.url2Stat Example.noPrefix Example.newClientURL
    (fixedGuess copyURLsTypeA) Example.rdFlag Example.rmFlag "linux"
    (Example.context ["/a.txt"; "/backup"] false "" "") false
  = Accepted.
Proof.
  refine (proj2 (checkCopySyntax_accepts_iff Example.url2Stat
                   Example.noPrefix Example.newClientURL
                   (fixedGuess copyURLsTypeA) Example.rdFlag Example.rmFlag
                   "linux" (Example.context ["/a.txt"; "/backup"] false "" "")
                   ["/a.txt"] "/backup" false eq_refl _) _).
  - discriminate.
  - repeat split.
Defined.

(** ** What the move flag changes *)

Section WordingFacts.

Lemma sameOrWording_refl (a : Result unit) : sameOrWording a a.
Proof. now left. Qed.

Lemma sameOrWording_bind (a b : Result unit) (k k' : unit -> Result unit) :
  sameOrWording a b ->
  sameOrWording (k tt) (k' tt) ->
  sameOrWording (bind a k) (bind b k').
Proof.
  intros [->|(ja & jb & -> & -> & Hr & Hw)] Hk.
  - destruct b as [[]|r]; simpl; [exact Hk | now left].
  - right. now exists ja, jb.
Qed.

Lemma sameOrWording_when (c : bool) (a b : Result unit) :
  sameOrWording a b -> sameOrWording (when c a) (when c b).
Proof. destruct c; simpl; [auto | intros _; now left]. Qed.

Lemma sameOrWording_forEach {A : Type} (f g : A -> Result unit)
    (xs : list A) :
  (forall x, sameOrWording (f x) (g x)) ->
  sameOrWording (forEach f xs) (forEach g xs).
Proof.
  intros Hfg. induction xs as [|x xs IH]; simpl; [now left|].
  apply sameOrWording_bind; auto.
Qed.

Lemma sameOrWording_site (site : Reason) (e : probeError)
    (args : list string) (msg msg' : string) :
  wordingSite site = true ->
  sameOrWording (FatalIf site (Some e) args msg)
    (FatalIf site (Some e) args msg').
Proof. intros Hw. right. simpl. eauto 6. Qed.

Lemma sameOrWording_dispatch (url2Stat : string -> statResult)
    (isURLPrefixExists : string -> bool -> bool) (ty : copyURLsType)
    (srcURLs : list string) (tgtURL : string) (isRecursive : bool) :
  sameOrWording
    (dispatch url2Stat isURLPrefixExists ty srcURLs tgtURL isRecursive true)
    (dispatch url2Stat isURLPrefixExists ty srcURLs tgtURL isRecursive false).
Proof.
  destruct ty; simpl; try apply sameOrWording_refl.
  - now apply sameOrWording_site.
  - unfold checkCopySyntaxTypeC.
    do 2 (apply sameOrWording_bind; [apply sameOrWording_refl|]).
    apply sameOrWording_forEach. intros s.
    unfold checkCopySyntaxTypeC_source.
    destruct (url2Stat s) as [c k|e]; [|apply sameOrWording_refl].
    apply sameOrWording_when. cbv zeta.
    apply sameOrWording_bind; apply sameOrWording_when;
      now apply sameOrWording_site.
Qed.

Lemma sameOrWording_checkCopySyntax
    (url2Stat : string -> statResult)
    (isURLPrefixExists : string -> bool -> bool)
    (newClientURL : string -> ClientURL)
    (guessCopyURLType :
       list string -> string -> bool -> copyURLsType * option probeError)
    (rdFlag rmFlag GOOS : string) (cliCtx : cli.Context) :
  sameOrWording
    (checkCopySyntax url2Stat isURLPrefixExists newClientURL
       guessCopyURLType rdFlag rmFlag GOOS cliCtx true)
    (checkCopySyntax url2Stat isURLPrefixExists newClientURL
       guessCopyURLType rdFlag rmFlag GOOS cliCtx false).
Proof.
  unfold checkCopySyntax. cbv zeta.
  apply sameOrWording_bind.
  { apply sameOrWording_when. right.
    do 2 eexists. unfold ShowCommandHelpAndExit. simpl.
    repeat split. }
  do 5 (apply sameOrWording_bind; [apply sameOrWording_refl|]).
  destruct (guessCopyURLType _ _ _) as [ty err].
  apply sameOrWording_bind.
  { apply sameOrWording_when. now apply sameOrWording_site. }
  apply sameOrWording_bind;
    [apply sameOrWording_dispatch | apply sameOrWording_refl].
Qed.

End WordingFacts.

(** X10.  The move flag changes nothing but wording, and only at four
    exits.  When [checkCopySyntax] exits anywhere other than the help exit,
    the unable-to-guess exit, the recursive-flag exit and the
    folder-into-itself exit, it exits with exactly the same error, traced
    arguments and message for a move as for a copy. *)
Theorem checkCopySyntax_move_changes_four_messages_only :
  forall (url2Stat : string -> statResult)
         (isURLPrefixExists : string -> bool -> bool)
         (newClientURL : string -> ClientURL)
         (guessCopyURLType :
            list string -> string -> bool -> copyURLsType * option probeError)
         (rdFlag rmFlag GOOS : string) (cliCtx : cli.Context)
         (j : Rejection),
    wordingSite (reason j) = false ->
    (checkCopySyntax url2Stat isURLPrefixExists newClientURL
       guessCopyURLType rdFlag rmFlag GOOS cliCtx true = Fatal j
     <-> checkCopySyntax url2Stat isURLPrefixExists newClientURL
           guessCopyURLType rdFlag rmFlag GOOS cliCtx false = Fatal j).
Proof.
  intros url2Stat isURLPrefixExists newClientURL guessCopyURLType
    rdFlag rmFlag GOOS cliCtx j Hw.
  destruct (sameOrWording_checkCopySyntax url2Stat isURLPrefixExists
              newClientURL guessCopyURLType rdFlag rmFlag GOOS cliCtx)
    as [->|(ja & jb & -> & -> & Hr & Hwa)]; [tauto|].
  split; intros [= <-]; congruence.
Qed.

(** X10 on the example files: a file as target of two sources is rejected
    in the same words for a move and for a copy. *)
Lemma same_message_on_example_files :
  checkCopySyntax Example.url2Stat Example.noPrefix Example.newClientURL
    (fixedGuess copyURLsTypeD) Example.rdFlag Example.rmFlag "linux"
    (Example.context ["/a.txt"; "/b.txt"; "/existing-file"] false "" "")
    true
  = Fatal (targetNotFolder "/existing-file").
Proof.
  exact (proj2 (checkCopySyntax_move_changes_four_messages_only
                  Example.url2Stat Example.noPrefix Example.newClientURL
                  (fixedGuess copyURLsTypeD) Example.rdFlag Example.rmFlag
                  "linux"
                  (Example.context ["/a.txt"; "/b.txt"; "/existing-file"]
                     false "" "")
                  (targetNotFolder "/existing-file") eq_refl)
               eq_refl).
Defined.

(* ================================================================== *)
(** * The policy command *)

Section PolicyFacts.

Variables accessNone accessDownload accessUpload accessPublic accessCustom
  : string.
Variable IsPathSeparator : ascii -> bool.

Lemma get_append_r (front t : string) (k : nat) :
  get (k + String.length front) (front ++ t) = get k t.
Proof.
  induction front as [|a front IH]; simpl.
  - now rewrite Nat.add_0_r.
  - rewrite Nat.add_succ_r. simpl. exact IH.
Qed.

(** [filepath.Ext] answers nothing or a suffix of the path. *)
Lemma extFrom_suffix (n : nat) (path : string) :
  extFrom IsPathSeparator n path = ""
  \/ exists i, i < n
       /\ extFrom IsPathSeparator n path
          = substring i (String.length path - i) path.
Proof.
  induction n as [|i IH]; simpl; [now left|].
  destruct (get i path) as [c|]; [|now left].
  destruct (IsPathSeparator c); [now left|].
  destruct (Ascii.eqb c "."); [right; exists i; split; [lia | reflexivity]|].
  destruct IH as [IH|(i' & Hi' & IH)]; [now left|].
  right. exists i'. split; [lia | exact IH].
Qed.

Hypothesis Hseparators :
  forall c, In c ["."; "j"; "s"; "o"; "n"]%char -> IsPathSeparator c = false.

Lemma Ext_json (path : string) :
  (Ext IsPathSeparator path =? ".json") = HasSuffix path ".json".
Proof.
  destruct (HasSuffix path ".json") eqn:Hsuf.
  - apply HasSuffix_iff in Hsuf. destruct Hsuf as [front ->].
    apply String.eqb_eq. unfold Ext. rewrite length_append.
    replace (String.length front + String.length ".json")
      with (5 + String.length front) by (simpl; lia).
    pose proof (get_append_r front ".json" 4) as H4.
    pose proof (get_append_r front ".json" 3) as H3.
    pose proof (get_append_r front ".json" 2) as H2.
    pose proof (get_append_r front ".json" 1) as H1.
    pose proof (get_append_r front ".json" 0) as H0.
    cbn [Nat.add get] in H4, H3, H2, H1, H0.
    cbn [Nat.add extFrom].
    rewrite H4, H3, H2, H1, H0.
    rewrite !Hseparators by (simpl; tauto).
    cbn [Ascii.eqb Bool.eqb andb].
    replace (String.length (front ++ ".json") - String.length front)
      with (String.length ".json") by (rewrite length_append; lia).
    apply substring_append_tail.
  - apply String.eqb_neq. intros Hext.
    assert (Hyes : HasSuffix path ".json" = true); [|congruence].
    apply HasSuffix_iff. unfold Ext in Hext.
    destruct (extFrom_suffix (String.length path) path)
      as [Hnone|(i & Hi & Hsome)]; [congruence|].
    exists (substring 0 i path). rewrite <- Hext, Hsome.
    apply substring_split. lia.
Qed.

End PolicyFacts.

(** X11.  The two conversions between access permissions and the names
    minio-go knows are inverse to each other on the five permissions, given
    that the five constants are distinct; any other permission converts to
    the empty string. *)
Theorem accessPerm_conversions_round_trip :
  forall accessNone accessDownload accessUpload accessPublic accessCustom
         : string,
    NoDup [accessNone; accessDownload; accessUpload; accessPublic;
           accessCustom] ->
    (forall perm,
        In perm [accessNone; accessDownload; accessUpload; accessPublic;
                 accessCustom] ->
        stringToAccessPerm accessNone accessDownload accessUpload
          accessPublic accessCustom
          (accessPermToString accessNone accessDownload accessUpload
             accessPublic accessCustom perm)
        = perm)
    /\ (forall name,
           In name ["none"; "readonly"; "writeonly"; "readwrite"; "custom"] ->
           accessPermToString accessNone accessDownload accessUpload
             accessPublic accessCustom
             (stringToAccessPerm accessNone accessDownload accessUpload
                accessPublic accessCustom name)
           = name)
    /\ (forall perm,
           ~ In perm [accessNone; accessDownload; accessUpload; accessPublic;
                      accessCustom] ->
           accessPermToString accessNone accessDownload accessUpload
             accessPublic accessCustom perm
           = "").
Proof.
  intros aN aD aU aP aC Hnd.
  assert (Hneq : aN <> aD /\ aN <> aU /\ aN <> aP /\ aN <> aC
                 /\ aD <> aU /\ aD <> aP /\ aD <> aC
                 /\ aU <> aP /\ aU <> aC /\ aP <> aC).
  { repeat match goal with
           | H : NoDup (_ :: _) |- _ => inversion H; clear H; subst
           end.
    simpl in *. intuition congruence. }
  destruct Hneq as (H1 & H2 & H3 & H4 & H5 & H6 & H7 & H8 & H9 & H10).
  unfold accessPermToString, stringToAccessPerm.
  split; [|split].
  - intros perm Hin. simpl in Hin.
    destruct Hin as [<-|[<-|[<-|[<-|[<-|[]]]]]];
      repeat match goal with
             | |- context [String.eqb ?a ?b] =>
                 is_var a; is_var b;
                 destruct (String.eqb_spec a b); try congruence
             end; reflexivity.
  - intros name Hin. simpl in Hin.
    destruct Hin as [<-|[<-|[<-|[<-|[<-|[]]]]]]; simpl;
      repeat match goal with
             | |- context [String.eqb ?a ?b] =>
                 is_var a; is_var b;
                 destruct (String.eqb_spec a b); try congruence
             end; reflexivity.
  - intros perm Hout. simpl in Hout.
    repeat match goal with
           | |- context [String.eqb ?a ?b] =>
               is_var a; is_var b;
               destruct (String.eqb_spec a b);
               try (exfalso; subst; tauto)
           end; reflexivity.
Qed.

(** X11 with the permissions [none], [download], [upload], [public] and
    [custom]. *)
Lemma accessPerm_round_trip_download :
  stringToAccessPerm "none" "download" "upload" "public" "custom"
    (accessPermToString "none" "download" "upload" "public" "custom"
       "download")
  = "download"
  /\ accessPermToString "none" "download" "upload" "public" "custom"
       "private"
     = "".
Proof.
  assert (Hnd : NoDup ["none"; "download"; "upload"; "public"; "custom"]).
  { repeat constructor; simpl; intuition discriminate. }
  destruct (accessPerm_conversions_round_trip
              "none" "download" "upload" "public" "custom" Hnd)
    as (Hto & _ & Hother).
  split.
  - apply Hto. simpl. tauto.
  - apply Hother. simpl. intuition discriminate.
Defined.

Section PolicySyntaxFacts.

Variables accessNone accessDownload accessUpload accessPublic accessCustom
  : string.
Variable IsPathSeparator : ascii -> bool.
Hypothesis Hseparators :
  forall c, In c ["."; "j"; "s"; "o"; "n"]%char -> IsPathSeparator c = false.

Lemma checkPolicySyntax_accepted_shape (args : list string) :
  checkPolicySyntax accessNone accessDownload accessUpload accessPublic
    IsPathSeparator args = Done tt ->
  wellFormedPolicyArgs accessNone accessDownload accessUpload accessPublic
    args.
Proof.
  unfold checkPolicySyntax, wellFormedPolicyArgs.
  destruct args as [|a [|b [|c [|d rest]]]]; cbn [length Get nth];
    try (simpl; discriminate).
  - simpl.
    destruct (String.eqb_spec a "set"); [discriminate|].
    destruct (String.eqb_spec a "set-json"); [discriminate|].
    destruct (String.eqb_spec a "get"); [discriminate|].
    destruct (String.eqb_spec a "get-json"); [discriminate|].
    destruct (String.eqb_spec a "list"); [discriminate|].
    destruct (String.eqb_spec a "links"); discriminate.
  - simpl.
    destruct (String.eqb_spec a "set"); [discriminate|].
    destruct (String.eqb_spec a "set-json"); [discriminate|].
    destruct (String.eqb_spec a "get");
      [subst; intros _; right; right; exists "get", b; simpl; tauto|].
    destruct (String.eqb_spec a "get-json");
      [subst; intros _; right; right; exists "get-json", b; simpl; tauto|].
    destruct (String.eqb_spec a "list");
      [subst; intros _; right; right; exists "list", b; simpl; tauto|].
    destruct (String.eqb_spec a "links");
      [subst; intros _; right; right; exists "links", b; simpl; tauto|].
    discriminate.
  - simpl.
    destruct (String.eqb_spec a "set").
    + subst. simpl.
      destruct (String.eqb_spec b accessNone);
        [intros _; left; exists b, c; simpl; auto|].
      destruct (String.eqb_spec b accessDownload);
        [intros _; left; exists b, c; simpl; auto|].
      destruct (String.eqb_spec b accessUpload);
        [intros _; left; exists b, c; simpl; auto|].
      destruct (String.eqb_spec b accessPublic);
        [intros _; left; exists b, c; simpl; auto 6|].
      discriminate.
    + destruct (String.eqb_spec a "set-json").
      * subst. simpl. rewrite (Ext_json IsPathSeparator Hseparators).
        destruct (HasSuffix b ".json") eqn:Hsuf; [|discriminate].
        intros _. right; left. now exists b, c.
      * destruct (String.eqb_spec a "get"); [discriminate|].
        destruct (String.eqb_spec a "get-json"); [discriminate|].
        destruct (String.eqb_spec a "list"); [discriminate|].
        destruct (String.eqb_spec a "links"); discriminate.
Qed.

Lemma checkPolicySyntax_accepts_shape (args : list string) :
  wellFormedPolicyArgs accessNone accessDownload accessUpload accessPublic
    args ->
  checkPolicySyntax accessNone accessDownload accessUpload accessPublic
    IsPathSeparator args = Done tt.
Proof.
  unfold wellFormedPolicyArgs, checkPolicySyntax.
  intros [(perm & target & -> & Hin)
         |[(file & target & -> & Hsuf)|(op & target & -> & Hin)]].
  - simpl in Hin. unfold Get. simpl.
    destruct (String.eqb_spec perm accessNone); [reflexivity|].
    destruct (String.eqb_spec perm accessDownload); [reflexivity|].
    destruct (String.eqb_spec perm accessUpload); [reflexivity|].
    destruct (String.eqb_spec perm accessPublic); [reflexivity|].
    exfalso. intuition congruence.
  - unfold Get. simpl.
    rewrite (Ext_json IsPathSeparator Hseparators), Hsuf. reflexivity.
  - simpl in Hin. destruct Hin as [<-|[<-|[<-|[<-|[]]]]]; reflexivity.
Qed.

End PolicySyntaxFacts.

(** X12.  What [checkPolicySyntax] accepts, given that no character of
    [.json] is a path separator: exactly the command lines [set PERMISSION
    TARGET] with one of the four permissions none, download, upload and
    public, [set-json FILE TARGET] with a file name ending in [.json], and
    [get], [get-json], [list] or [links] followed by a target.  Everything
    else exits. *)
Theorem checkPolicySyntax_accepts_iff :
  forall (accessNone accessDownload accessUpload accessPublic : string)
         (IsPathSeparator : ascii -> bool) (args : list string),
    (forall c, In c ["."; "j"; "s"; "o"; "n"]%char ->
               IsPathSeparator c = false) ->
    (checkPolicySyntax accessNone accessDownload accessUpload accessPublic
       IsPathSeparator args = Done tt
     <-> wellFormedPolicyArgs accessNone accessDownload accessUpload
           accessPublic args).
Proof.
  intros aN aD aU aP sep args Hsep. split.
  - now apply checkPolicySyntax_accepted_shape.
  - now apply checkPolicySyntax_accepts_shape.
Qed.

(** X12 on unix, where the only path separator is the slash. *)
Lemma policy_set_json_on_unix :
  checkPolicySyntax "none" "download" "upload" "public"
    (fun c => Ascii.eqb c "/") ["set-json"; "rules/policy.json"; "s3/shared"]
  = Done tt.
Proof.
  refine (proj2 (checkPolicySyntax_accepts_iff "none" "download" "upload"
                   "public" (fun c => Ascii.eqb c "/")
                   ["set-json"; "rules/policy.json"; "s3/shared"] _) _).
  - intros c Hin. simpl in Hin.
    destruct Hin as [<-|[<-|[<-|[<-|[<-|[]]]]]]; reflexivity.
  - right. left. exists "rules/policy.json", "s3/shared".
    split; reflexivity.
Defined.

(** X13.  Once [checkPolicySyntax] has accepted the command line,
    [mainPolicy] never falls into its own help exit: it hands the whole
    argument list to [runPolicyCmd] for [set], [set-json], [get] and
    [get-json], and exactly the one target to [runPolicyListCmd] for [list]
    and to [runPolicyLinksCmd], with the recursive flag, for [links]. *)
Theorem mainPolicy_runs_the_command_checked :
  forall (accessNone accessDownload accessUpload accessPublic : string)
         (IsPathSeparator : ascii -> bool)
         (runPolicyCmd runPolicyListCmd : list string -> Run unit)
         (runPolicyLinksCmd : list string -> bool -> Run unit)
         (ctx : cli.Context),
    checkPolicySyntax accessNone accessDownload accessUpload accessPublic
      IsPathSeparator (cli.Args ctx) = Done tt ->
    (In (First (cli.Args ctx)) ["set"; "set-json"; "get"; "get-json"]
     /\ mainPolicy accessNone accessDownload accessUpload accessPublic
          IsPathSeparator runPolicyCmd runPolicyListCmd runPolicyLinksCmd ctx
        = runPolicyCmd (cli.Args ctx))
    \/ (exists target,
           cli.Args ctx = ["list"; target]
           /\ mainPolicy accessNone accessDownload accessUpload accessPublic
                IsPathSeparator runPolicyCmd runPolicyListCmd
                runPolicyLinksCmd ctx
              = runPolicyListCmd [target])
    \/ (exists target,
           cli.Args ctx = ["links"; target]
           /\ mainPolicy accessNone accessDownload accessUpload accessPublic
                IsPathSeparator runPolicyCmd runPolicyListCmd
                runPolicyLinksCmd ctx
              = runPolicyLinksCmd [target] (cli.Bool ctx "recursive")).
Proof.
  intros aN aD aU aP sep runCmd runList runLinks ctx Hok.
  unfold mainPolicy. rewrite Hok. cbn [andThen].
  revert Hok. unfold checkPolicySyntax, First, Tail.
  destruct (cli.Args ctx) as [|a [|b [|c [|d rest]]]]; cbn [length Get nth];
    try (simpl; discriminate); simpl.
  - destruct (String.eqb_spec a "set"); [discriminate|].
    destruct (String.eqb_spec a "set-json"); [discriminate|].
    destruct (String.eqb_spec a "get"); [discriminate|].
    destruct (String.eqb_spec a "get-json"); [discriminate|].
    destruct (String.eqb_spec a "list"); [discriminate|].
    destruct (String.eqb_spec a "links"); discriminate.
  - destruct (String.eqb_spec a "set"); [discriminate|].
    destruct (String.eqb_spec a "set-json"); [discriminate|].
    destruct (String.eqb_spec a "get"); [intros _; left; simpl; auto|].
    destruct (String.eqb_spec a "get-json");
      [intros _; left; simpl; auto 6|].
    destruct (String.eqb_spec a "list");
      [subst; intros _; right; left; now exists b|].
    destruct (String.eqb_spec a "links");
      [subst; intros _; right; right; now exists b|].
    discriminate.
  - destruct (String.eqb_spec a "set"); [intros _; left; simpl; auto|].
    destruct (String.eqb_spec a "set-json"); [intros _; left; simpl; auto|].
    destruct (String.eqb_spec a "get"); [discriminate|].
    destruct (String.eqb_spec a "get-json"); [discriminate|].
    destruct (String.eqb_spec a "list"); [discriminate|].
    destruct (String.eqb_spec a "links"); discriminate.
Qed.

(** X13 on [list s3/shared]: the list runner is called with one
    argument. *)
Lemma mainPolicy_list_on_example :
  mainPolicy "none" "download" "upload" "public" (fun c => Ascii.eqb c "/")
    recordCmd recordList recordLinks
    (flagContext ["list"; "s3/shared"] [] "")
  = Exited (HelpExit "runPolicyListCmd" 1).
Proof.
  destruct (mainPolicy_runs_the_command_checked "none" "download" "upload"
              "public" (fun c => Ascii.eqb c "/") recordCmd recordList
              recordLinks (flagContext ["list"; "s3/shared"] [] "") eq_refl)
    as [[Hin _]|[(target & Hargs & Hrun)|(target & Hargs & _)]].
  - simpl in Hin. intuition discriminate.
  - injection Hargs as <-. exact Hrun.
  - discriminate.
Defined.

(* ================================================================== *)
(** * The lifecycle remove command *)

(** X14.  [checkILMRemoveSyntax] accepts exactly the command lines with
    one argument and either both [--all] and [--force], or neither of them
    and a non-empty [--id].  With one argument and only one of [--all] and
    [--force] it exits saying that the two flags go together; with both, no
    id is asked for. *)
Theorem checkILMRemoveSyntax_accepts_iff :
  forall (globalErrorExitStatus : nat) (commandFullName : string)
         (ctx : cli.Context),
    (checkILMRemoveSyntax globalErrorExitStatus commandFullName ctx = Done tt
     <-> length (cli.Args ctx) = 1
         /\ ((cli.Bool ctx "all" = true /\ cli.Bool ctx "force" = true)
             \/ (cli.Bool ctx "all" = false /\ cli.Bool ctx "force" = false
                 /\ cli.String ctx "id" <> "")))
    /\ (length (cli.Args ctx) = 1 ->
        cli.Bool ctx "all" <> cli.Bool ctx "force" ->
        checkILMRemoveSyntax globalErrorExitStatus commandFullName ctx
        = Exited
            (FatalExit (Probe errInvalidArgument) []
               ("It is mandatory to specify --all and --force flag together for mc "
                ++ commandFullName ++ "."))).
Proof.
  intros status name ctx. unfold checkILMRemoveSyntax. cbv zeta. split.
  - destruct (Nat.eqb_spec (length (cli.Args ctx)) 1) as [Hlen|Hlen];
      cbn [negb exitIf andThen]; [|intuition discriminate].
    destruct (cli.Bool ctx "all"), (cli.Bool ctx "force");
      cbn [negb andb orb exitIf andThen]; try (intuition discriminate).
    destruct (String.eqb_spec (cli.String ctx "id") "");
      cbn [exitIf]; intuition discriminate.
  - intros Hlen Hflags. rewrite Hlen. cbn [Nat.eqb negb exitIf andThen].
    destruct (cli.Bool ctx "all"), (cli.Bool ctx "force");
      try congruence; reflexivity.
Qed.

(** X14 on [--all] without [--force], and on [--all --force]. *)
Lemma ilm_remove_all_needs_force :
  checkILMRemoveSyntax 1 "ilm remove"
    (flagContext ["myminio/testbucket"] ["all"] "")
  = Exited
      (FatalExit (Probe errInvalidArgument) []
         "It is mandatory to specify --all and --force flag together for mc ilm remove.")
  /\ checkILMRemoveSyntax 1 "ilm remove"
       (flagContext ["myminio/testbucket"] ["all"; "force"] "")
     = Done tt.
Proof.
  split.
  - refine (proj2 (checkILMRemoveSyntax_accepts_iff 1 "ilm remove"
                     (flagContext ["myminio/testbucket"] ["all"] ""))
                  eq_refl _).
    discriminate.
  - refine (proj2 (proj1 (checkILMRemoveSyntax_accepts_iff 1 "ilm remove"
                            (flagContext ["myminio/testbucket"]
                               ["all"; "force"] ""))) _).
    split; [reflexivity | left; split; reflexivity].
Defined.

(* ================================================================== *)
(** * The bucket quota command *)

(** X15.  [checkAdminBucketQuotaSyntax] accepts exactly the command lines
    with one argument on which [--hard] and [--fifo] are not both given;
    [--clear] beside a quota flag is let through.  Its last two tests never
    fire: any command line without an argument has already been sent to the
    help, so whenever it exits through [FatalIf] it is for [--hard] together
    with [--fifo]. *)
Theorem checkAdminBucketQuotaSyntax_accepts_iff :
  forall (IsSet : string -> bool) (ctx : cli.Context),
    (checkAdminBucketQuotaSyntax IsSet ctx = Done tt
     <-> length (cli.Args ctx) = 1
         /\ (IsSet "hard" && IsSet "fifo") = false)
    /\ (forall err args msg,
           checkAdminBucketQuotaSyntax IsSet ctx
           = Exited (FatalExit err args msg) ->
           msg = "Only one of --hard or --fifo flags can be set"
           /\ length (cli.Args ctx) = 1).
Proof.
  intros IsSet ctx. unfold checkAdminBucketQuotaSyntax.
  destruct (cli.Args ctx) as [|a [|b rest]]; cbn [length Nat.eqb Nat.ltb
    Nat.leb orb exitIf andThen].
  - split; [intuition discriminate | discriminate].
  - rewrite !andb_false_r. cbn [exitIf andThen].
    destruct (IsSet "hard" && IsSet "fifo"); cbn [exitIf andThen]; split;
      try (intuition discriminate).
    intros err args msg [= <- <- <-]. now split.
  - split; [intuition discriminate | discriminate].
Qed.

(* ================================================================== *)
(** * The lock command *)

Section ParseUintFacts.

Lemma of_uint_acc_grows (d : Decimal.uint) :
  forall p, (p <= Pos.of_uint_acc d p)%positive.
Proof.
  induction d; intros p; cbn [Pos.of_uint_acc]; try lia;
    match goal with
    | |- (_ <= Pos.of_uint_acc _ ?q)%positive =>
        specialize (IHd q); lia
    end.
Qed.

Lemma cutoff_value : (maxUint64 / 10 + 1 = 1844674407370955162)%N.
Proof. reflexivity. Qed.

(** One round of the loop of [ParseUint] on a known digit. *)
Ltac digit_step :=
  cbn [parseUintFrom Pos.of_uint_acc];
  match goal with
  | |- context [isDigit ?c] =>
      let b := eval vm_compute in (isDigit c) in change (isDigit c) with b
  end;
  match goal with
  | |- context [N.of_nat ?e] =>
      let v := eval vm_compute in (N.of_nat e) in change (N.of_nat e) with v
  end;
  cbv iota zeta; rewrite cutoff_value.

(** Reading the digits of a numeral after a positive value. *)
Lemma parseUintFrom_digits_acc (d : Decimal.uint) :
  forall p,
    (N.pos (Pos.of_uint_acc d p) <= maxUint64)%N ->
    parseUintFrom (NilEmpty.string_of_uint d) (N.pos p)
    = (N.pos (Pos.of_uint_acc d p), None).
Proof.
  induction d; intros p Hmax; simpl NilEmpty.string_of_uint;
    [reflexivity|..];
    cbn [Pos.of_uint_acc] in Hmax;
    match goal with
    | H : (N.pos (Pos.of_uint_acc _ ?q) <= _)%N |- _ =>
        pose proof (of_uint_acc_grows d q) as Hgrow
    end;
    digit_step; unfold maxUint64 in Hmax |- *;
    (destruct (N.leb_spec 1844674407370955162 (N.pos p)); [lia|]);
    match goal with
    | |- context [N.ltb ?a ?b] => destruct (N.ltb_spec a b); [lia|]
    end;
    match goal with
    | |- parseUintFrom _ ?n = (N.pos (Pos.of_uint_acc _ ?q), None) =>
        replace n with (N.pos q) by lia
    end;
    apply IHd; exact Hmax.
Qed.

(** Reading the digits of a numeral from the start. *)
Lemma parseUintFrom_digits (d : Decimal.uint) :
  (N.of_uint d <= maxUint64)%N ->
  parseUintFrom (NilEmpty.string_of_uint d) 0 = (N.of_uint d, None).
Proof.
  induction d; intros Hmax; simpl NilEmpty.string_of_uint;
    [reflexivity | |..].
  - digit_step. change (1844674407370955162 <=? 0)%N with false.
    change (maxUint64 <? 0 * 10 + 0)%N with false. cbv iota.
    exact (IHd Hmax).
  - digit_step. apply (parseUintFrom_digits_acc d 1 Hmax).
  - digit_step. apply (parseUintFrom_digits_acc d 2 Hmax).
  - digit_step. apply (parseUintFrom_digits_acc d 3 Hmax).
  - digit_step. apply (parseUintFrom_digits_acc d 4 Hmax).
  - digit_step. apply (parseUintFrom_digits_acc d 5 Hmax).
  - digit_step. apply (parseUintFrom_digits_acc d 6 Hmax).
  - digit_step. apply (parseUintFrom_digits_acc d 7 Hmax).
  - digit_step. apply (parseUintFrom_digits_acc d 8 Hmax).
  - digit_step. apply (parseUintFrom_digits_acc d 9 Hmax).
Qed.

Lemma decimal_nonempty (n : N) : decimal n <> "".
Proof.
  unfold decimal. destruct n as [|p]; simpl; [discriminate|].
  pose proof (DecimalPos.Unsigned.to_uint_nonnil p) as Hnil.
  destruct (Pos.to_uint p); simpl; congruence.
Qed.

(** [ParseUint] reads back what [%d] prints. *)
Lemma ParseUint_decimal (n : N) :
  (n <= maxUint64)%N -> ParseUint (decimal n) = (n, None).
Proof.
  intros Hmax. unfold ParseUint.
  destruct (String.eqb_spec (decimal n) "") as [Hempty|_];
    [now apply decimal_nonempty in Hempty|].
  unfold decimal. rewrite parseUintFrom_digits;
    rewrite DecimalN.Unsigned.of_to; [reflexivity | exact Hmax].
Qed.

(** What [ParseUint] accepts is made of digits and fits 64 bits. *)
Lemma parseUintFrom_sound (s : string) :
  forall n v,
    (n <= maxUint64)%N ->
    parseUintFrom s n = (v, None) ->
    (v <= maxUint64)%N
    /\ forallb isDigit (list_ascii_of_string s) = true.
Proof.
  induction s as [|c s IH]; intros n v Hn; cbn [parseUintFrom].
  - intros [= <-]. now split.
  - cbn [list_ascii_of_string forallb].
    destruct (isDigit c); [|discriminate]. cbv zeta. rewrite cutoff_value.
    destruct (N.leb_spec 1844674407370955162 n); [discriminate|].
    destruct (N.ltb_spec maxUint64 (n * 10 + N.of_nat (nat_of_ascii c - 48)));
      [discriminate|].
    intros Hrest. apply IH in Hrest; [|assumption]. exact Hrest.
Qed.

End ParseUintFacts.

Section RetentionValidityFacts.

Variable IsValid : string -> bool.
Variables Days Years : string.

Lemma last_byte (s : string) (u : ascii) :
  get (String.length (s ++ String u "") - 1) (s ++ String u "") = Some u
  /\ substring 0 (String.length (s ++ String u "") - 1) (s ++ String u "")
     = s.
Proof.
  rewrite length_append. simpl String.length.
  replace (String.length s + 1 - 1) with (String.length s) by lia.
  split.
  - exact (get_append_r s (String u "") 0).
  - apply substring_append_head.
Qed.

Lemma substring_one (s : string) :
  forall i b, get i s = Some b -> substring i 1 s = String b "".
Proof.
  induction s as [|c s IH]; intros [|i] b; simpl; try discriminate.
  - intros [= ->]. now rewrite substring_none.
  - apply IH.
Qed.

Lemma get_in_range (s : string) :
  forall i b, get i s = Some b -> i < String.length s.
Proof.
  induction s as [|c s IH]; intros [|i] b; simpl; try discriminate.
  - lia.
  - intros H. apply IH in H. lia.
Qed.

(** A string ends with its last byte. *)
Lemma split_last_byte (s : string) (b : ascii) :
  get (String.length s - 1) s = Some b ->
  s = substring 0 (String.length s - 1) s ++ String b "".
Proof.
  intros Hget. pose proof (get_in_range _ _ _ Hget) as Hlen.
  pose proof (substring_split (String.length s - 1) s ltac:(lia)) as Hsplit.
  replace (String.length s - (String.length s - 1)) with 1 in Hsplit by lia.
  rewrite (substring_one _ _ _ Hget) in Hsplit. exact Hsplit.
Qed.

Lemma string_of_byte_letter (b c : ascii) :
  (nat_of_ascii c <? 128)%nat = true ->
  (string_of_byte b =? String c "") = Ascii.eqb b c.
Proof.
  intros Hc. unfold string_of_byte.
  cbv zeta.
  destruct (nat_of_ascii b <? 128)%nat eqn:Hb; cbn [String.eqb].
  - now destruct (Ascii.eqb b c).
  - destruct (Ascii.eqb_spec b c) as [->|_]; [congruence|].
    now destruct (Ascii.eqb _ c).
Qed.

End RetentionValidityFacts.

(** X16.  [parseRetentionValidity] reads back a printed number followed by
    a unit letter: for a valid mode and any [n] below 2^64, the decimal
    text of [n] followed by [d] or [D] gives [n] days, and followed by [y]
    or [Y] gives [n] years, without error. *)
Theorem parseRetentionValidity_reads_decimal :
  forall (IsValid : string -> bool) (Days Years : string) (m : string)
         (n : N),
    IsValid m = true ->
    (n <= maxUint64)%N ->
    parseRetentionValidity IsValid Days Years (decimal n ++ "d") m
    = Returns (n, Days, None)
    /\ parseRetentionValidity IsValid Days Years (decimal n ++ "D") m
       = Returns (n, Days, None)
    /\ parseRetentionValidity IsValid Days Years (decimal n ++ "y") m
       = Returns (n, Years, None)
    /\ parseRetentionValidity IsValid Days Years (decimal n ++ "Y") m
       = Returns (n, Years, None).
Proof.
  intros IsValid Days Years m n Hm Hn.
  unfold parseRetentionValidity. rewrite Hm. cbn [negb].
  repeat split;
    match goal with
    | |- context [decimal n ++ String ?u ""] =>
        destruct (last_byte (decimal n) u) as [-> ->]
    end;
    cbv zeta; rewrite (ParseUint_decimal n Hn); reflexivity.
Qed.

(** X16 on thirty days and on the largest validity. *)
Lemma thirty_days :
  parseRetentionValidity retentionModeIsValid "DAYS" "YEARS"
    "30d" "COMPLIANCE"
  = Returns (30%N, "DAYS", None)
  /\ parseRetentionValidity retentionModeIsValid "DAYS" "YEARS"
       "18446744073709551615Y" "COMPLIANCE"
     = Returns (maxUint64, "YEARS", None).
Proof.
  split.
  - refine (proj1 (parseRetentionValidity_reads_decimal
                     retentionModeIsValid "DAYS" "YEARS"
                     "COMPLIANCE" 30 eq_refl _)).
    discriminate.
  - refine (proj2 (proj2 (proj2 (parseRetentionValidity_reads_decimal
                     retentionModeIsValid "DAYS" "YEARS"
                     "COMPLIANCE" maxUint64 eq_refl _)))).
    discriminate.
Defined.

(** X17.  Edge cases of [parseRetentionValidity].  The mode is looked at
    first: with an invalid mode every validity, the empty one included,
    gives an invalid-argument error naming the mode.  With a valid mode an
    empty validity panics (the index of the last byte is out of range), and
    a validity of one byte, a unit without a number, is a syntax error of
    [ParseUint]. *)
Theorem parseRetentionValidity_edges :
  forall (IsValid : string -> bool) (Days Years : string) (m : string),
    (IsValid m = false ->
     forall validityStr,
       parseRetentionValidity IsValid Days Years validityStr m
       = Returns (0%N, "",
                  Some (Probe errInvalidArgument,
                        ["invalid retention mode '" ++ m ++ "'"])))
    /\ (IsValid m = true ->
        parseRetentionValidity IsValid Days Years "" m
        = Panics "index out of range"
        /\ forall b,
             parseRetentionValidity IsValid Days Years (String b "") m
             = Returns (0%N, "",
                        Some (Wrapped (NumError "ParseUint" "" ErrSyntax),
                              [""]))).
Proof.
  intros IsValid Days Years m. unfold parseRetentionValidity. split.
  - intros ->. reflexivity.
  - intros ->. split; reflexivity.
Qed.

(** X17 with the mode [WEEKLY], which is refused, and [COMPLIANCE]. *)
Lemma retention_validity_edges_on_example :
  parseRetentionValidity retentionModeIsValid "DAYS" "YEARS"
    "" "WEEKLY"
  = Returns (0%N, "",
             Some (Probe errInvalidArgument,
                   ["invalid retention mode 'WEEKLY'"]))
  /\ parseRetentionValidity retentionModeIsValid "DAYS" "YEARS"
       "" "COMPLIANCE"
     = Panics "index out of range".
Proof.
  split.
  - exact (proj1 (parseRetentionValidity_edges
                    retentionModeIsValid "DAYS" "YEARS" "WEEKLY")
                 eq_refl "").
  - exact (proj1 (proj2 (parseRetentionValidity_edges
                           retentionModeIsValid "DAYS" "YEARS"
                           "COMPLIANCE")
                        eq_refl)).
Defined.

(** What [parseRetentionValidity] returns without error. *)
Lemma retentionValidity_returned :
  forall (IsValid : string -> bool) (Days Years : string)
         (validityStr m : string) (validity : N) (unit : string),
    parseRetentionValidity IsValid Days Years validityStr m
    = Returns (validity, unit, None) ->
    IsValid m = true
    /\ (validity <= maxUint64)%N
    /\ exists digits u,
         validityStr = digits ++ String u ""
         /\ digits <> ""
         /\ forallb isDigit (list_ascii_of_string digits) = true
         /\ ((In u ["d"; "D"]%char /\ unit = Days)
             \/ (In u ["y"; "Y"]%char /\ unit = Years)).
Proof.
  intros IsValid Days Years validityStr m validity unit.
  unfold parseRetentionValidity.
  destruct (IsValid m); cbn [negb]; [|discriminate].
  destruct (get (String.length validityStr - 1) validityStr) as [b|] eqn:Hget;
    [|discriminate].
  cbv zeta. pose proof (split_last_byte _ _ Hget) as Hsplit.
  set (digits := substring 0 (String.length validityStr - 1) validityStr)
    in *.
  unfold ParseUint.
  destruct (String.eqb_spec digits "") as [Hempty|Hdigits]; [discriminate|].
  destruct (parseUintFrom digits 0) as [v [e|]] eqn:Hparse; [discriminate|].
  apply parseUintFrom_sound in Hparse; [|discriminate].
  destruct Hparse as [Hv Hall].
  rewrite !(string_of_byte_letter b) by reflexivity.
  destruct (Ascii.eqb_spec b "d") as [->|_]; cbn [orb].
  { intros [= <- <-]. repeat split; auto.
    exists digits, "d"%char. repeat split; auto. left. simpl. tauto. }
  destruct (Ascii.eqb_spec b "D") as [->|_]; cbn [orb].
  { intros [= <- <-]. repeat split; auto.
    exists digits, "D"%char. repeat split; auto. left. simpl. tauto. }
  destruct (Ascii.eqb_spec b "y") as [->|_]; cbn [orb].
  { intros [= <- <-]. repeat split; auto.
    exists digits, "y"%char. repeat split; auto. right. simpl. tauto. }
  destruct (Ascii.eqb_spec b "Y") as [->|_]; cbn [orb].
  { intros [= <- <-]. repeat split; auto.
    exists digits, "Y"%char. repeat split; auto. right. simpl. tauto. }
  discriminate.
Qed.

(** X18.  Whatever [parseRetentionValidity] returns without error is
    sound: the mode is valid, the validity string is a non-empty run of
    decimal digits followed by one of [d], [D] (then the unit is days) or
    [y], [Y] (then the unit is years), and the number returned is at most
    2^64 - 1. *)
Theorem parseRetentionValidity_sound :
  forall (IsValid : string -> bool) (Days Years : string)
         (validityStr m : string) (validity : N) (unit : string),
    parseRetentionValidity IsValid Days Years validityStr m
    = Returns (validity, unit, None) ->
    IsValid m = true
    /\ (validity <= maxUint64)%N
    /\ exists digits u,
         validityStr = digits ++ String u ""
         /\ digits <> ""
         /\ forallb isDigit (list_ascii_of_string digits) = true
         /\ ((In u ["d"; "D"]%char /\ unit = Days)
             \/ (In u ["y"; "Y"]%char /\ unit = Years)).
Proof. exact retentionValidity_returned. Qed.

(** X18 on ten years. *)
Lemma ten_years_sound :
  retentionModeIsValid "COMPLIANCE" = true
  /\ (10 <= maxUint64)%N
  /\ exists digits u,
       "10y" = digits ++ String u ""
       /\ digits <> ""
       /\ forallb isDigit (list_ascii_of_string digits) = true
       /\ ((In u ["d"; "D"]%char /\ "YEARS" = "DAYS")
           \/ (In u ["y"; "Y"]%char /\ "YEARS" = "YEARS")).
Proof.
  exact (parseRetentionValidity_sound retentionModeIsValid "DAYS" "YEARS"
           "10y" "COMPLIANCE" 10 "YEARS" eq_refl).
Defined.



(* ================================================================== *)
(** * The list of OBD tests *)

Section OBDFacts.

Lemma append_nonempty_r (s t : string) : t <> "" -> s ++ t <> "".
Proof. destruct s; simpl; [auto | discriminate]. Qed.

Lemma append_nonempty_l (s t : string) : s <> "" -> s ++ t <> "".
Proof. destruct s; simpl; [congruence | discriminate]. Qed.

(** After a non-empty text every further test comes after a comma. *)
Lemma stringFrom_nonempty (d : list string) :
  forall val,
    val <> "" ->
    stringFrom val d
    = val ++ String.concat "" (map (fun x => "," ++ x) d).
Proof.
  induction d as [|x d IH]; intros val Hval; simpl.
  - now rewrite append_empty_r.
  - destruct (String.eqb_spec val "") as [|_]; [contradiction|]. simpl.
    rewrite IH by (apply append_nonempty_l; exact Hval).
    destruct d as [|y d']; simpl.
    + now rewrite !append_empty_r.
    + rewrite !append_assoc. reflexivity.
Qed.

Lemma concat_commas (x : string) (d : list string) :
  x ++ String.concat "" (map (fun y => "," ++ y) d)
  = String.concat "," (x :: d).
Proof.
  revert x. induction d as [|y d IH]; intros x.
  - simpl. apply append_empty_r.
  - change (String.concat "," (x :: y :: d))
      with (x ++ "," ++ String.concat "," (y :: d)).
    rewrite <- IH. f_equal.
    destruct d as [|z d']; cbn [map String.concat].
    + now rewrite append_empty_r.
    + rewrite append_assoc. reflexivity.
Qed.

Lemma stringFrom_joins (d : list string) :
  stringFrom "" d = String.concat "," (dropLeadingEmpty d).
Proof.
  induction d as [|x d IH]; simpl; [reflexivity|].
  destruct (String.eqb_spec x "") as [->|Hx]; [exact IH|].
  rewrite stringFrom_nonempty by exact Hx. apply concat_commas.
Qed.

End OBDFacts.

(** X20.  [OBDDataTypeSlice.String] joins the tests with commas, except
    that empty tests at the head of the list leave no trace: it is the
    comma-separated text of the list without its leading empty strings.  For
    a list without empty tests it is the plain comma-separated text. *)
Theorem OBDDataTypeSlice_String_joins :
  forall d : list string,
    OBDDataTypeSlice_String d = String.concat "," (dropLeadingEmpty d)
    /\ (forallb (fun x => negb (x =? "")) d = true ->
        OBDDataTypeSlice_String d = String.concat "," d).
Proof.
  intros d. unfold OBDDataTypeSlice_String. split.
  - apply stringFrom_joins.
  - intros Hall. rewrite stringFrom_joins.
    destruct d as [|x d]; [reflexivity|]. simpl in Hall |- *.
    destruct (x =? ""); [discriminate | reflexivity].
Qed.

(** X20 on three tests, and on a list that starts with an empty one. *)
Lemma obd_tests_joined :
  OBDDataTypeSlice_String ["drive"; "net"; "sysinfo"] = "drive,net,sysinfo"
  /\ OBDDataTypeSlice_String [""; "net"] = "net".
Proof.
  split.
  - exact (proj2 (OBDDataTypeSlice_String_joins ["drive"; "net"; "sysinfo"])
                 eq_refl).
  - exact (proj1 (OBDDataTypeSlice_String_joins [""; "net"])).
Defined.

Section OBDSetFacts.

Variable OBDDataTypesMap : string -> option string.
Variable options : list string.

Lemma Split_nonempty (s : string) (sep : ascii) : Split s sep <> [].
Proof.
  destruct s as [|c s]; simpl; [discriminate|].
  destruct (Ascii.eqb c sep); [discriminate|].
  destruct (Split s sep); discriminate.
Qed.

Lemma Split_whole (x : string) (sep : ascii) :
  occurs sep x = false -> Split x sep = [x].
Proof.
  induction x as [|c x IH]; simpl; [reflexivity|].
  destruct (Ascii.eqb c sep); simpl; [discriminate|].
  intros Hx. now rewrite (IH Hx).
Qed.

Lemma Split_piece (x rest : string) (sep : ascii) :
  occurs sep x = false ->
  Split (x ++ String sep rest) sep = x :: Split rest sep.
Proof.
  induction x as [|c x IH]; simpl.
  - now rewrite Ascii.eqb_refl.
  - destruct (Ascii.eqb c sep); simpl; [discriminate|].
    intros Hx. now rewrite (IH Hx).
Qed.

Lemma Split_concat (d : list string) :
  d <> [] ->
  (forall x, In x d -> occurs "," x = false) ->
  Split (String.concat "," d) "," = d.
Proof.
  induction d as [|x d IH]; [congruence|]. intros _ Hd.
  destruct d as [|y d'].
  - simpl. apply Split_whole. apply Hd. now left.
  - change (String.concat "," (x :: y :: d'))
      with (x ++ String "," (String.concat "," (y :: d'))).
    rewrite Split_piece by (apply Hd; now left).
    rewrite IH; [reflexivity | discriminate |].
    intros z Hz. apply Hd. now right.
Qed.

Lemma setFrom_all_known (pieces : list string) :
  forall d,
    (forall x, In x pieces -> OBDDataTypesMap (TrimSpaces x) = Some x) ->
    setFrom OBDDataTypesMap options pieces d = ((d ++ pieces)%list, None).
Proof.
  induction pieces as [|x pieces IH]; intros d Hknown; simpl.
  - now rewrite app_nil_r.
  - rewrite (Hknown x) by now left.
    rewrite IH by (intros z Hz; apply Hknown; now right).
    now rewrite <- app_assoc.
Qed.

End OBDSetFacts.

(** X21.  Setting the flag from its own text appends the same list: for a
    non-empty list of tests that are each non-empty, free of commas and
    known to the table under their trimmed name, [Set] applied to the text
    given by [String] appends exactly that list and returns no error.  The
    empty list does not survive the round trip: its text is empty, and
    [Set] of the empty text either fails or appends one test. *)
Theorem OBDDataTypeSlice_Set_of_String :
  forall (OBDDataTypesMap : string -> option string)
         (options d d0 : list string),
    (d <> [] ->
     (forall x, In x d ->
                x <> "" /\ occurs "," x = false
                /\ OBDDataTypesMap (TrimSpaces x) = Some x) ->
     OBDDataTypeSlice_Set OBDDataTypesMap options
       (OBDDataTypeSlice_String d) d0
     = ((d0 ++ d)%list, None))
    /\ OBDDataTypeSlice_Set OBDDataTypesMap options
         (OBDDataTypeSlice_String []) d0
       <> (d0, None).
Proof.
  intros OBDDataTypesMap options d d0. split.
  - intros Hne Hd. unfold OBDDataTypeSlice_Set, OBDDataTypeSlice_String.
    rewrite stringFrom_joins.
    assert (Hkeep : dropLeadingEmpty d = d).
    { destruct d as [|x d']; [reflexivity|]. simpl.
      destruct (String.eqb_spec x "") as [Hx|_]; [|reflexivity].
      destruct (Hd x (or_introl eq_refl)) as [Hx' _]. contradiction. }
    rewrite Hkeep, Split_concat; [| exact Hne | intros x Hx; apply Hd, Hx].
    apply setFrom_all_known. intros x Hx. apply Hd, Hx.
  - unfold OBDDataTypeSlice_Set, OBDDataTypeSlice_String. simpl.
    destruct (OBDDataTypesMap (TrimSpaces "")) as [o|]; [|discriminate].
    intros [= Heq]. apply (f_equal (@length string)) in Heq.
    rewrite length_app in Heq. simpl in Heq. lia.
Qed.

(** X21 on the tests [drive] and [net]. *)
Lemma obd_tests_round_trip :
  OBDDataTypeSlice_Set (knownTests ["drive"; "net"; "sysinfo"])
    ["drive"; "net"; "sysinfo"]
    (OBDDataTypeSlice_String ["drive"; "net"]) []
  = (["drive"; "net"], None).
Proof.
  refine (proj1 (OBDDataTypeSlice_Set_of_String
                   (knownTests ["drive"; "net"; "sysinfo"])
                   ["drive"; "net"; "sysinfo"] ["drive"; "net"] []) _ _).
  - discriminate.
  - intros x [<-|[<-|[]]]; repeat split; discriminate.
Defined.
